(** * RoSeal build pipeline: manifest transformer, locale extractor, DNR rule
    generator, build orchestrator and dev server.

    A shallow embedding of [scripts/build/utils.ts], [scripts/build.ts],
    [scripts/build/constants.ts] and [scripts/dev.ts].

    Conventions of the embedding.
    - A JavaScript property that is absent or holds [undefined] is [None]:
      every document modelled here leaves the program through
      [JSON.stringify], which drops such properties, and the code never asks
      [key in obj].
    - Strings are sequences of code units; every character the code inspects
      is ASCII.
    - A JavaScript object iterated with [for ... in] is an association list in
      insertion order. *)

From Stdlib Require Import String Ascii List ZArith Bool Arith Lia.
Import ListNotations.
Open Scope string_scope.
Open Scope list_scope.
Set Warnings "-register-all".

(* ------------------------------------------------------------------ *)
(** ** The fragment of [String.prototype] the build scripts use *)

Module JsString.

Local Open Scope string_scope.

Definition startsWith (s pre : string) : bool := String.prefix pre s.

Fixpoint drop (n : nat) (s : string) : string :=
  match n, s with
  | O, _ => s
  | S n', String _ s' => drop n' s'
  | S _, EmptyString => EmptyString
  end.

Definition endsWith (s suf : string) : bool :=
  let n := String.length s in
  let k := String.length suf in
  if Nat.leb k n then String.eqb (drop (n - k) s) suf else false.

(** [search pat s] splits [s] around the first occurrence of [pat]. *)
Fixpoint search (pat s : string) : option (string * string) :=
  if String.prefix pat s then Some (EmptyString, drop (String.length pat) s)
  else
    match s with
    | EmptyString => None
    | String c s' =>
        match search pat s' with
        | Some (before, after) => Some (String c before, after)
        | None => None
        end
    end.

Definition includes (s pat : string) : bool :=
  match search pat s with Some _ => true | None => false end.

(** GetSubstitution of ECMAScript for a string pattern (no capture groups):
    [$$], [$&], [$`] and [$'] are expanded, every other [$] is literal. *)
Fixpoint getSubstitution (matched before after repl : string) : string :=
  match repl with
  | EmptyString => EmptyString
  | String c tl =>
      if Ascii.eqb c "$" then
        match tl with
        | String d rest =>
            if Ascii.eqb d "$" then String "$" (getSubstitution matched before after rest)
            else if Ascii.eqb d "&" then matched ++ getSubstitution matched before after rest
            else if Ascii.eqb d "`" then before ++ getSubstitution matched before after rest
            else if Ascii.eqb d "'" then after ++ getSubstitution matched before after rest
            else String c (getSubstitution matched before after tl)
        | EmptyString => String c EmptyString
        end
      else String c (getSubstitution matched before after tl)
  end.

(** [s.replace(pat, repl)] with a string pattern: first occurrence only. *)
Definition replace (s pat repl : string) : string :=
  match search pat s with
  | Some (before, after) => before ++ getSubstitution pat before after repl ++ after
  | None => s
  end.

(** [s.replaceAll(c, by)] for a one-character pattern and a replacement
    without [$]. *)
Fixpoint replaceAllChar (s : string) (c : ascii) (by_ : string) : string :=
  match s with
  | EmptyString => EmptyString
  | String d s' =>
      if Ascii.eqb d c then by_ ++ replaceAllChar s' c by_
      else String d (replaceAllChar s' c by_)
  end.

(** Template-literal interpolation of a possibly [undefined] string. *)
Definition interpolate (v : option string) : string :=
  match v with Some s => s | None => "undefined" end.

End JsString.

(** [a ?? b] on an optional array. *)
Definition orEmpty {A} (o : option (list A)) : list A :=
  match o with Some l => l | None => [] end.

(* ------------------------------------------------------------------ *)
(** ** Data model ([scripts/build/constants.ts]) *)

Inductive Target := Chrome | Firefox | Edge | Safari.
Inductive TargetBase := chromium | firefox | apple.

Definition Target_toString (t : Target) : string :=
  match t with
  | Chrome => "chrome" | Firefox => "firefox" | Edge => "edge" | Safari => "safari"
  end.

Definition TargetBase_eqb (a b : TargetBase) : bool :=
  match a, b with
  | chromium, chromium | firefox, firefox | apple, apple => true
  | _, _ => false
  end.

Definition getTargetBaseFromTarget (target : Target) : TargetBase :=
  match target with
  | Chrome | Edge => chromium
  | Firefox => firefox
  | Safari => apple
  end.

Record DevServersAvailable := {
  IS_DEV_API_ACCESSIBLE : bool;
  IS_DEV_WWW_ACCESSIBLE : bool;
  IS_DEV_WS_ACCESSIBLE : bool
}.

(** Sub-documents the transformer only moves around. *)
Inductive Json :=
| JNull
| JBool (b : bool)
| JNumber (z : Z)
| JString (s : string)
| JArray (items : list Json)
| JObject (fields : list (string * Json)).

Record BrowserSpecificSettings := {
  bs_id : option string;
  bs_beta_id : option string;
  bs_key : option string;
  bs_beta_update_url : option string;
  bs_strict_min_version : option string;
  bs_strict_max_version : option string
}.

(** [BrowserSpecificSettings & { android? }]; the synthesized [gecko] block is
    a spread of it with [update_url] added, so the same record carries both. *)
Record FirefoxSettings := {
  fx_id : option string;
  fx_beta_id : option string;
  fx_key : option string;
  fx_beta_update_url : option string;
  fx_strict_min_version : option string;
  fx_strict_max_version : option string;
  fx_update_url : option string;
  fx_android : option BrowserSpecificSettings
}.

Record SettingsBlock := {
  bss_chrome : option BrowserSpecificSettings;
  bss_firefox : option FirefoxSettings;
  bss_safari : option BrowserSpecificSettings;
  bss_gecko : option FirefoxSettings;
  bss_gecko_android : option BrowserSpecificSettings
}.

Record WebAccessibleResource := {
  resources : list string;
  matches : option (list string);
  extension_ids : option (list string);
  use_dynamic_url : option bool
}.

(** The source manifest groups resources by match pattern; the Gecko output
    holds a flat array in the same property ([None] is an [undefined] slot,
    which only a second pass over an output can produce). *)
Inductive WebAccessibleResources :=
| WarGroups (groups : list WebAccessibleResource)
| WarFlat (items : list (option string)).

Record Background := {
  service_worker : option string;
  bg_type : option string;
  scripts : option (list (option string))
}.

Record Manifest := {
  schema : option string;                       (* $schema *)
  manifest_version : Z;
  name : option string;
  short_name : option string;
  version : option string;
  store_version : option string;
  version_name : option string;
  beta : option bool;
  permissions : option (list string);
  host_permissions : option (list string);
  optional_permissions : option (list string);
  optional_host_permissions : option (list string);
  web_accessible_resources : option WebAccessibleResources;
  options_ui : option Json;
  action : option Json;
  browser_action : option Json;
  incognito : option string;
  background : option Background;
  browser_specific_settings : option SettingsBlock;
  key : option string;
  minimum_chrome_version : option string;
  other : list (string * Json)    (* author, description, icons, ...: never touched *)
}.

(** The shape TypeScript's [Manifest] type gives the source document:
    grouped web-accessible resources. *)
Definition isSourceManifest (m : Manifest) : bool :=
  match web_accessible_resources m with
  | Some (WarFlat _) => false
  | _ => true
  end.

(* ------------------------------------------------------------------ *)
(** ** A result type for code that may raise a [TypeError] *)

Inductive Result (A : Type) :=
| Ok (a : A)
| TypeError.
Arguments Ok {A} a.
Arguments TypeError {A}.

Definition bind {A B} (r : Result A) (k : A -> Result B) : Result B :=
  match r with Ok a => k a | TypeError => TypeError end.

Notation "x <- r ;; k" := (bind r (fun x => k))
  (at level 61, r at next level, right associativity).

(* ------------------------------------------------------------------ *)
(** ** Manifest transformer ([transformManifest], utils.ts 118-249) *)

(** Assignments [manifest.f = v] on the private clone. *)
Definition set_schema (m : Manifest) (v : option string) : Manifest :=
  Build_Manifest v (manifest_version m) (name m) (short_name m) (version m)
    (store_version m) (version_name m) (beta m) (permissions m) (host_permissions m)
    (optional_permissions m) (optional_host_permissions m) (web_accessible_resources m)
    (options_ui m) (action m) (browser_action m) (incognito m) (background m)
    (browser_specific_settings m) (key m) (minimum_chrome_version m) (other m).

Definition set_web_accessible_resources (m : Manifest)
    (v : option WebAccessibleResources) : Manifest :=
  Build_Manifest (schema m) (manifest_version m) (name m) (short_name m) (version m)
    (store_version m) (version_name m) (beta m) (permissions m) (host_permissions m)
    (optional_permissions m) (optional_host_permissions m) v
    (options_ui m) (action m) (browser_action m) (incognito m) (background m)
    (browser_specific_settings m) (key m) (minimum_chrome_version m) (other m).

Definition set_host_permissions (m : Manifest) (v : option (list string)) : Manifest :=
  Build_Manifest (schema m) (manifest_version m) (name m) (short_name m) (version m)
    (store_version m) (version_name m) (beta m) (permissions m) v
    (optional_permissions m) (optional_host_permissions m) (web_accessible_resources m)
    (options_ui m) (action m) (browser_action m) (incognito m) (background m)
    (browser_specific_settings m) (key m) (minimum_chrome_version m) (other m).

Definition set_names (m : Manifest) (n sn : option string) : Manifest :=
  Build_Manifest (schema m) (manifest_version m) n sn (version m)
    (store_version m) (version_name m) (beta m) (permissions m) (host_permissions m)
    (optional_permissions m) (optional_host_permissions m) (web_accessible_resources m)
    (options_ui m) (action m) (browser_action m) (incognito m) (background m)
    (browser_specific_settings m) (key m) (minimum_chrome_version m) (other m).

Definition set_beta (m : Manifest) (v : option bool) : Manifest :=
  Build_Manifest (schema m) (manifest_version m) (name m) (short_name m) (version m)
    (store_version m) (version_name m) v (permissions m) (host_permissions m)
    (optional_permissions m) (optional_host_permissions m) (web_accessible_resources m)
    (options_ui m) (action m) (browser_action m) (incognito m) (background m)
    (browser_specific_settings m) (key m) (minimum_chrome_version m) (other m).

Definition set_optional_permissions (m : Manifest) (v : option (list string)) : Manifest :=
  Build_Manifest (schema m) (manifest_version m) (name m) (short_name m) (version m)
    (store_version m) (version_name m) (beta m) (permissions m) (host_permissions m)
    v (optional_host_permissions m) (web_accessible_resources m)
    (options_ui m) (action m) (browser_action m) (incognito m) (background m)
    (browser_specific_settings m) (key m) (minimum_chrome_version m) (other m).

Definition set_incognito (m : Manifest) (v : option string) : Manifest :=
  Build_Manifest (schema m) (manifest_version m) (name m) (short_name m) (version m)
    (store_version m) (version_name m) (beta m) (permissions m) (host_permissions m)
    (optional_permissions m) (optional_host_permissions m) (web_accessible_resources m)
    (options_ui m) (action m) (browser_action m) v (background m)
    (browser_specific_settings m) (key m) (minimum_chrome_version m) (other m).

Definition set_browser_specific_settings (m : Manifest)
    (v : option SettingsBlock) : Manifest :=
  Build_Manifest (schema m) (manifest_version m) (name m) (short_name m) (version m)
    (store_version m) (version_name m) (beta m) (permissions m) (host_permissions m)
    (optional_permissions m) (optional_host_permissions m) (web_accessible_resources m)
    (options_ui m) (action m) (browser_action m) (incognito m) (background m)
    v (key m) (minimum_chrome_version m) (other m).

Definition set_key (m : Manifest) (v : option string) : Manifest :=
  Build_Manifest (schema m) (manifest_version m) (name m) (short_name m) (version m)
    (store_version m) (version_name m) (beta m) (permissions m) (host_permissions m)
    (optional_permissions m) (optional_host_permissions m) (web_accessible_resources m)
    (options_ui m) (action m) (browser_action m) (incognito m) (background m)
    (browser_specific_settings m) v (minimum_chrome_version m) (other m).

Definition set_minimum_chrome_version (m : Manifest) (v : option string) : Manifest :=
  Build_Manifest (schema m) (manifest_version m) (name m) (short_name m) (version m)
    (store_version m) (version_name m) (beta m) (permissions m) (host_permissions m)
    (optional_permissions m) (optional_host_permissions m) (web_accessible_resources m)
    (options_ui m) (action m) (browser_action m) (incognito m) (background m)
    (browser_specific_settings m) (key m) v (other m).

Definition set_resources (data : WebAccessibleResource) (v : list string)
    : WebAccessibleResource :=
  {| resources := v; matches := matches data;
     extension_ids := extension_ids data; use_dynamic_url := use_dynamic_url data |}.

(** [manifest.beta] used as a condition. *)
Definition isBeta (m : Manifest) : bool :=
  match beta m with Some true => true | _ => false end.

(** Lines 128-136 on a grouped array: [.map] files leave every group, empty
    groups leave the array, an empty array leaves the manifest. *)
Definition stripGroups (groups : list WebAccessibleResource)
    : option (list WebAccessibleResource) :=
  let cleaned :=
    map (fun data =>
           set_resources data
             (filter (fun item => negb (JsString.endsWith item ".map"))
                     (resources data)))
        groups in
  let kept := filter (fun item => Nat.ltb 0 (length (resources item))) cleaned in
  if Nat.eqb (length kept) 0 then None else Some kept.

(** Lines 127-137. A flat (already transformed) array makes
    [data.resources.filter] raise. *)
Definition stripSourceMaps (isDev : bool) (manifest : Manifest) : Result Manifest :=
  match web_accessible_resources manifest with
  | Some war =>
      if negb isDev then
        match war with
        | WarGroups groups =>
            Ok (set_web_accessible_resources manifest
                  (option_map WarGroups (stripGroups groups)))
        | WarFlat [] => Ok (set_web_accessible_resources manifest None)
        | WarFlat (_ :: _) => TypeError
        end
      else Ok manifest
  | None => Ok manifest
  end.

(** Lines 139-142: [devServers] is tested as an object, not by its flags. *)
Definition addLocalhost (isDev : bool) (devServers : option DevServersAvailable)
    (manifest : Manifest) : Manifest :=
  match devServers with
  | Some _ =>
      if isDev then
        set_host_permissions manifest
          (Some (orEmpty (host_permissions manifest) ++ ["*://localhost/*"]))
      else manifest
  | None => manifest
  end.

(** Lines 144-147. *)
Definition markBeta (isDev : bool) (manifest : Manifest) : Manifest :=
  if isBeta manifest && negb isDev
  then set_names manifest (Some "RoSeal BETA") (Some "RoSeal BETA")
  else manifest.

(** Lines 184-186: [web_accessible_resources?.flatMap(r => r.resources)]. *)
Definition flattenResources (war : option WebAccessibleResources)
    : Result (option WebAccessibleResources) :=
  match war with
  | None => Ok None
  | Some (WarGroups groups) =>
      Ok (Some (WarFlat (map Some (flat_map resources groups))))
  | Some (WarFlat items) =>
      if forallb (fun i => match i with Some _ => true | None => false end) items
      then Ok (Some (WarFlat (map (fun _ => None) items)))
      else TypeError
  end.

(** Lines 149-188: the per-family object spread. *)
Definition familyShape (targetBase : TargetBase) (manifest : Manifest) : Result Manifest :=
  match targetBase with
  | firefox =>
      war <- flattenResources (web_accessible_resources manifest) ;;
      Ok {| schema := schema manifest;
            manifest_version := 2;
            name := name manifest;
            short_name := short_name manifest;
            version := store_version manifest;
            store_version := None;
            version_name := None;
            beta := beta manifest;
            permissions :=
              Some (orEmpty (host_permissions manifest) ++ orEmpty (permissions manifest));
            host_permissions := None;
            optional_permissions :=
              Some (orEmpty (optional_host_permissions manifest)
                    ++ orEmpty (optional_permissions manifest));
            optional_host_permissions := None;
            web_accessible_resources := war;
            options_ui := options_ui manifest;
            action := None;
            browser_action := action manifest;
            incognito := Some "spanning";
            background :=
              option_map (fun b => {| service_worker := None; bg_type := None;
                                      scripts := Some [service_worker b] |})
                         (background manifest);
            browser_specific_settings := browser_specific_settings manifest;
            key := key manifest;
            minimum_chrome_version := minimum_chrome_version manifest;
            other := other manifest |}
  | _ =>
      Ok {| schema := schema manifest;
            manifest_version := manifest_version manifest;
            name := name manifest;
            short_name := short_name manifest;
            version := store_version manifest;
            store_version := None;
            version_name :=
              option_map (fun vn => JsString.replace vn "__manifest_version__"
                                      (JsString.interpolate (version manifest)))
                         (version_name manifest);
            beta := beta manifest;
            permissions := permissions manifest;
            host_permissions := host_permissions manifest;
            optional_permissions := optional_permissions manifest;
            optional_host_permissions := optional_host_permissions manifest;
            web_accessible_resources := web_accessible_resources manifest;
            options_ui := None;
            action := action manifest;
            browser_action := browser_action manifest;
            incognito := incognito manifest;
            background := background manifest;
            browser_specific_settings := browser_specific_settings manifest;
            key := key manifest;
            minimum_chrome_version := minimum_chrome_version manifest;
            other := other manifest |}
  end.

(** [x?.f] *)
Definition optField {A B} (x : option A) (f : A -> option B) : option B :=
  match x with Some a => f a | None => None end.

(** Lines 219-222: the beta fields are erased on the settings object before
    it is spread. *)
Definition clearBetaFields (fx : FirefoxSettings) : FirefoxSettings :=
  {| fx_id := fx_id fx; fx_beta_id := None; fx_key := fx_key fx;
     fx_beta_update_url := None;
     fx_strict_min_version := fx_strict_min_version fx;
     fx_strict_max_version := fx_strict_max_version fx;
     fx_update_url := fx_update_url fx; fx_android := fx_android fx |}.

(** Lines 226-231: [{ ...firefox, id, update_url: updateUrl, android: undefined }]. *)
Definition geckoBlock (fx : FirefoxSettings) (id updateUrl : option string)
    : FirefoxSettings :=
  {| fx_id := id; fx_beta_id := fx_beta_id fx; fx_key := fx_key fx;
     fx_beta_update_url := fx_beta_update_url fx;
     fx_strict_min_version := fx_strict_min_version fx;
     fx_strict_max_version := fx_strict_max_version fx;
     fx_update_url := updateUrl; fx_android := None |}.

(** Lines 190-237: the per-family settings fan-out. *)
Definition familySettings (targetBase : TargetBase) (isDev : bool)
    (manifest : Manifest) : Manifest :=
  match browser_specific_settings manifest with
  | None => manifest
  | Some bss =>
      match targetBase with
      | apple =>
          set_browser_specific_settings manifest
            (Some {| bss_chrome := None; bss_firefox := None;
                     bss_safari := bss_safari bss;
                     bss_gecko := None; bss_gecko_android := None |})
      | chromium =>
          let manifest1 :=
            if isDev then set_key manifest (optField (bss_chrome bss) bs_key)
            else manifest in
          let manifest2 :=
            set_minimum_chrome_version manifest1
              (optField (bss_chrome bss) bs_strict_min_version) in
          set_browser_specific_settings manifest2 None
      | firefox =>
          let id :=
            if negb isDev then
              if isBeta manifest then optField (bss_firefox bss) fx_beta_id
              else optField (bss_firefox bss) fx_id
            else None in
          let updateUrl :=
            if negb isDev then
              if isBeta manifest then optField (bss_firefox bss) fx_beta_id
              else None
            else None in
          let fx := option_map clearBetaFields (bss_firefox bss) in
          set_browser_specific_settings manifest
            (Some {| bss_chrome := None; bss_firefox := None; bss_safari := None;
                     bss_gecko := option_map (fun f => geckoBlock f id updateUrl) fx;
                     bss_gecko_android := optField fx fx_android |})
      end
  end.

(** Lines 239-244. *)
Definition appleStrip (targetBase : TargetBase) (manifest : Manifest) : Manifest :=
  match targetBase with
  | apple =>
      set_optional_permissions (set_incognito manifest None)
        (option_map (filter (fun item => negb (String.eqb item "cookies")))
                    (optional_permissions manifest))
  | _ => manifest
  end.

Definition transformManifest (_manifest : Manifest) (targetBase : TargetBase)
    (isDev : bool) (devServers : option DevServersAvailable) : Result Manifest :=
  let manifest := set_schema _manifest None in          (* structuredClone; $schema *)
  manifest <- stripSourceMaps isDev manifest ;;
  let manifest := addLocalhost isDev devServers manifest in
  let manifest := markBeta isDev manifest in
  manifest <- familyShape targetBase manifest ;;
  let manifest := familySettings targetBase isDev manifest in
  let manifest := appleStrip targetBase manifest in
  Ok (set_beta manifest None).

(* ------------------------------------------------------------------ *)
(** ** Locale extractor ([handleI18NNamespace], utils.ts 361-433) *)

Module I18n.

Inductive Env := main | inject | popup | background | roseal | manifest.

Definition Env_eqb (a b : Env) : bool :=
  match a, b with
  | main, main | inject, inject | popup, popup
  | background, background | roseal, roseal | manifest, manifest => true
  | _, _ => false
  end.

(** [types.includes(type)] *)
Definition includes (types : list Env) (type : Env) : bool :=
  existsb (Env_eqb type) types.

(** [I18nDetail | string]. The directive properties [$types], [$message] and
    [$context] are named fields; [children] lists the properties in the
    order [for ... in] enumerates them. *)
Inductive Value :=
| Str (s : string)
| Detail (types : option (list Env)) (message : option string)
         (context : option string) (children : list (string * Value)).

Definition File := list (string * Value).

Record Entry := {
  e_context : option string;      (* $context *)
  e_message : option string       (* message *)
}.

(** The accumulated [transform] object, keys in insertion order. *)
Definition Transform := list (string * Entry).

Fixpoint lookup (t : Transform) (k : string) : option Entry :=
  match t with
  | [] => None
  | (k', e) :: t' => if String.eqb k' k then Some e else lookup t' k
  end.

(** [transform[k] = e]: an existing key keeps its place. *)
Fixpoint assign (t : Transform) (k : string) (e : Entry) : Transform :=
  match t with
  | [] => [(k, e)]
  | (k', e') :: t' =>
      if String.eqb k' k then (k', e) :: t' else (k', e') :: assign t' k e
  end.

Definition keys (t : Transform) : list string := map fst t.

(** A string used as a condition: defined and not empty. *)
Definition truthy (s : option string) : bool :=
  match s with
  | Some EmptyString => false
  | Some _ => true
  | None => false
  end.

(** [types?.includes("manifest") && types.length === 1] *)
Definition manifestOnly (types : option (list Env)) : bool :=
  match types with
  | Some ts => includes ts manifest && Nat.eqb (length ts) 1
  | None => false
  end.

Definition setKeyOf (types : option (list Env)) (namespace : option string)
    (key : string) : string :=
  let setKey :=
    match namespace with
    | Some ns => if truthy namespace then (ns ++ "." ++ key)%string else key
    | None => key
    end in
  if manifestOnly types then JsString.replaceAllChar setKey "." "_" else setKey.

(** [`${currentContext ? `${currentContext}; ` : ""}${label}`] *)
Definition contextLabel (currentContext : option string) (label : string) : string :=
  match currentContext with
  | Some c => if truthy currentContext then (c ++ "; " ++ label)%string else label
  | None => label
  end.

(** Lines 405-411: is an object node gated out? [given] tells whether the
    caller passed a [_transform] (every recursive call does). *)
Definition gatedOut (types nodeTypes : option (list Env)) (given : bool) : bool :=
  match types with
  | Some ts =>
      negb (existsb (includes ts)
              (match nodeTypes with Some nts => nts | None => [main] end))
      && (match nodeTypes with Some _ => true | None => false end || negb given)
  | None => false
  end.

(** The body of the [for ... in] loop for one property, with the recursive
    call on an object node inlined as a loop over its children. *)
Fixpoint handleProperty (types : option (list Env)) (includeContext : bool)
    (namespace : option string) (given : bool) (currentContext : option string)
    (key : string) (value : Value) (transform : Transform) {struct value}
    : Transform :=
  let setKey := setKeyOf types namespace key in
  if JsString.startsWith key "$" then transform
  else
    match value with
    | Str s =>
        if Nat.eqb (String.length s) 0 then transform
        else assign transform setKey {| e_context := None; e_message := Some s |}
    | Detail nodeTypes message context children =>
        if gatedOut types nodeTypes given then transform
        else
          let transform1 :=
            if truthy message then
              let e :=
                match lookup transform setKey with
                | Some e => e
                | None => {| e_context := None; e_message := None |}
                end in
              assign transform setKey
                {| e_context :=
                     if includeContext
                     then Some (contextLabel currentContext
                                  (match context with
                                   | Some c => if truthy context then c else key
                                   | None => key
                                   end))
                     else e_context e;
                   e_message := message |}
            else transform in
          let nextContext :=
            if includeContext
            then Some (contextLabel currentContext
                         (match context with Some c => c | None => key end))
            else None in
          (fix loop (data : list (string * Value)) (acc : Transform) : Transform :=
             match data with
             | [] => acc
             | (k, v) :: rest =>
                 loop rest
                   (handleProperty types includeContext (Some setKey) true
                      nextContext k v acc)
             end) children transform1
    end.

Definition handleProperties (types : option (list Env)) (includeContext : bool)
    (namespace : option string) (given : bool) (currentContext : option string)
    (data : list (string * Value)) (transform : Transform) : Transform :=
  fold_left
    (fun acc kv =>
       handleProperty types includeContext namespace given currentContext
         (fst kv) (snd kv) acc)
    data transform.

(** [handleI18NNamespace(data, types, namespace, _transform, includeContext,
    currentContext)]; [_transform = None] is the omitted argument. *)
Definition handleI18NNamespace (data : File) (types : option (list Env))
    (namespace : option string) (_transform : option Transform)
    (includeContext : bool) (currentContext : option string) : Transform :=
  handleProperties types includeContext namespace
    (match _transform with Some _ => true | None => false end)
    currentContext data
    (match _transform with Some t => t | None => [] end).

(* ---------------------------------------------------------------- *)
(** *** ICU argument collection ([getI18nTypesFile], utils.ts 482-545) *)

(** [MessageFormatElement] of @formatjs/icu-messageformat-parser, by its
    numeric [type] tag. *)
Inductive Element :=
| Literal (value : string)                                     (* 0 *)
| Argument (value : string)                                    (* 1 *)
| Number (value : string)                                      (* 2 *)
| Date (value : string)                                        (* 3 *)
| Time (value : string)                                        (* 4 *)
| Select (value : string) (options : list (string * list Element))   (* 5 *)
| Plural (value : string) (options : list (string * list Element))   (* 6 *)
| Pound                                                        (* 7 *)
| Tag (value : string) (children : list Element).              (* 8 *)

(** [handleItem], already flattened as [flatMap] flattens it. *)
Fixpoint handleItem (item : Element) : list Element :=
  let branches :=
    fix branches (opts : list (string * list Element)) : list Element :=
      match opts with
      | [] => []
      | (_, els) :: rest =>
          (fix items (l : list Element) : list Element :=
             match l with
             | [] => []
             | x :: l' => handleItem x ++ items l'
             end) els ++ branches rest
      end in
  match item with
  | Select _ options | Plural _ options => item :: branches options
  | Tag _ children =>
      item :: (fix items (l : list Element) : list Element :=
                 match l with
                 | [] => []
                 | x :: l' => handleItem x ++ items l'
                 end) children
  | _ => [item]
  end.

(** [item.type !== 0 && "value" in item] *)
Definition isArgument (item : Element) : bool :=
  match item with
  | Literal _ | Pound => false
  | _ => true
  end.

Definition valueOf (item : Element) : option string :=
  match item with
  | Literal v | Argument v | Number v | Date v | Time v
  | Select v _ | Plural v _ | Tag v _ => Some v
  | Pound => None
  end.

(** Lines 515-531: the stateful filter over [handledKeys]. *)
Fixpoint dedupe (args : list Element) (handledKeys : list string) : list string :=
  match args with
  | [] => []
  | item :: rest =>
      match valueOf item with
      | Some v =>
          if truthy (Some v) then
            if existsb (String.eqb v) handledKeys then dedupe rest handledKeys
            else v :: dedupe rest (handledKeys ++ [v])
          else dedupe rest handledKeys
      | None => dedupe rest handledKeys
      end
  end.

(** The external parser restricted to messages made of plain text and
    [{name}] placeholders; anything else (quoting apostrophes, tags, formats,
    nested or unbalanced braces) is outside the fragment and gives [None]. *)
Inductive ParseMode := InText (lit : string) | InArg (arg : string).

Definition flushText (lit : string) : list Element :=
  if Nat.eqb (String.length lit) 0 then [] else [Literal lit].

Definition inFragment (c : ascii) : bool :=
  negb (Ascii.eqb c "'" || Ascii.eqb c "<" || Ascii.eqb c ">"
        || Ascii.eqb c "#" || Ascii.eqb c "}").

Definition isNameChar (c : ascii) : bool :=
  negb (Ascii.eqb c "{" || Ascii.eqb c "," || Ascii.eqb c " "
        || Ascii.eqb c "'" || Ascii.eqb c "<" || Ascii.eqb c ">"
        || Ascii.eqb c "#").

Fixpoint parseFrom (s : string) (mode : ParseMode) : option (list Element) :=
  match s, mode with
  | EmptyString, InText lit => Some (flushText lit)
  | EmptyString, InArg _ => None
  | String c s', InText lit =>
      if Ascii.eqb c "{" then
        option_map (app (flushText lit)) (parseFrom s' (InArg EmptyString))
      else if inFragment c then parseFrom s' (InText (lit ++ String c EmptyString)%string)
      else None
  | String c s', InArg arg =>
      if Ascii.eqb c "}" then
        if Nat.eqb (String.length arg) 0 then None
        else option_map (cons (Argument arg)) (parseFrom s' (InText EmptyString))
      else if isNameChar c then parseFrom s' (InArg (arg ++ String c EmptyString)%string)
      else None
  end.

Definition parseMessage (msg : string) : option (list Element) :=
  parseFrom msg (InText EmptyString).

(** Lines 509-513 and 515-531: the distinct argument names of an entry, in
    order of first appearance, for a given parser; [None] when the parser
    rejects the message. The declaration text printed from the names
    ([{ "name": unknown }], or [void] without arguments) is not modelled. *)
Definition argumentNames (parse : string -> option (list Element)) (e : Entry)
    : option (list string) :=
  match e_message e with
  | Some m =>
      if truthy (Some m) then
        option_map
          (fun els => dedupe (filter isArgument (flat_map handleItem els)) [])
          (parse m)
      else Some []
  | None => Some []
  end.

(** The environments [getI18nTypesFile] extracts for. *)
Definition typesFileEnvs : list Env := [main; inject; popup; background].

(** Induction over a locale tree, children included. *)
Fixpoint Value_rect_nested (P : Value -> Prop)
    (HStr : forall s, P (Str s))
    (HDetail : forall types message context children,
        Forall (fun kv => P (snd kv)) children ->
        P (Detail types message context children))
    (v : Value) {struct v} : P v :=
  match v with
  | Str s => HStr s
  | Detail types message context children =>
      HDetail types message context children
        ((fix all (l : list (string * Value)) : Forall (fun kv => P (snd kv)) l :=
            match l with
            | [] => Forall_nil _
            | kv :: l' =>
                Forall_cons kv (Value_rect_nested P HStr HDetail (snd kv)) (all l')
            end) children)
  end.

(** Does a key hold a structural separator? *)
Fixpoint hasDot (s : string) : bool :=
  match s with
  | EmptyString => false
  | String c s' => Ascii.eqb c "." || hasDot s'
  end.

(** No key of the catalog holds a dot. *)
Definition dotFree (t : Transform) : Prop :=
  forall k, In k (keys t) -> hasDot k = false.

End I18n.

(* ------------------------------------------------------------------ *)
(** ** Rule generator ([writeDNRRules], build.ts 203-294) *)

Module DNR.

Definition DEV_SERVER_API_PORT : string := "4121".
Definition DEV_SERVER_WWW_PORT : string := "35922".
Definition ROSEAL_TRACKING_HEADER_NAME : string := "_rosealRequest".
Definition ROSEAL_OVERRIDE_PLATFORM_TYPE_HEADER_NAME : string := "_rosealPlatformType".
Definition CONTENT_SECURITY_POLICY_HEADER_NAME : string := "content-security-policy".

(** The entries of [getDomains] that depend on its arguments or are read by
    the rule generator; the remaining ones are literal constants. *)
Record Domains := {
  ROBLOX_DOMAIN : string;
  ROSEAL_DOMAIN : string;
  ROSEAL_API_DOMAIN : string;
  ROSEAL_WEBSITE_DOMAIN : string;
  WEB_STORE_LISTING_LINK : string;
  TWEMOJI_EMOJI_BASE_URL : string;
  FLUENTUI_EMOJI_BASE_URL : string
}.

Definition flag (devServers : option DevServersAvailable)
    (f : DevServersAvailable -> bool) : bool :=
  match devServers with Some d => f d | None => false end.

Definition getDomains (target : Target) (isDev : bool)
    (devServers : option DevServersAvailable) : Domains :=
  {| ROBLOX_DOMAIN := "{service}.roblox.com";
     ROSEAL_DOMAIN := "{service}.roseal.live";
     ROSEAL_API_DOMAIN :=
       if isDev && flag devServers IS_DEV_API_ACCESSIBLE
       then ("localhost:" ++ DEV_SERVER_API_PORT)%string
       else JsString.replace "{service}.roseal.live" "{service}" "data";
     ROSEAL_WEBSITE_DOMAIN :=
       if isDev && flag devServers IS_DEV_WWW_ACCESSIBLE
       then ("localhost:" ++ DEV_SERVER_WWW_PORT)%string
       else "www.roseal.live";
     WEB_STORE_LISTING_LINK :=
       match target with
       | Firefox => "https://addons.mozilla.org/en-US/firefox/addon/roseal/"
       | Edge =>
           "https://microsoftedge.microsoft.com/addons/detail/emjkdffoonmeappoffiaalofdiflmela"
       | _ => "https://chromewebstore.google.com/detail/hfjngafpndganmdggnapblamgbfjhnof"
       end;
     TWEMOJI_EMOJI_BASE_URL := "https://cdn.jsdelivr.net/gh/jdecked/twemoji@16.0.1/assets/";
     FLUENTUI_EMOJI_BASE_URL :=
       "https://cdn.jsdelivr.net/gh/RoSeal-Extension/fluentui-emoji@latest/export/" |}.

Record UserAgentOverride := {
  userAgent : string;
  platformType : string;
  deviceType : string
}.

(** [getUserAgentOverrides(robloxVersion = "0")] *)
Definition getUserAgentOverrides (robloxVersion : option string)
    : list UserAgentOverride :=
  let v := match robloxVersion with Some v => v | None => "0" end in
  [ {| userAgent :=
         ("Roblox/WinInet RobloxApp/" ++ v ++ " (GlobalDist; RobloxDirectDownload)")%string;
       platformType := "Desktop"; deviceType := "Desktop" |};
    {| userAgent := "Roblox/XboxOne ROBLOX Xbox App 1.0.0";
       platformType := "Console"; deviceType := "Console" |};
    {| userAgent :=
         ("(0MB; 0x0; 0x0; 0x0; ; 0) ROBLOX Android Tablet RobloxApp/" ++ v
          ++ " (GlobalDist; GooglePlayStore)")%string;
       platformType := "Tablet"; deviceType := "Tablet" |};
    {| userAgent :=
         ("(0MB; 0x0; 0x0; 0x0; ; 0) ROBLOX Android Phone RobloxApp/" ++ v
          ++ " (GlobalDist; GooglePlayStore)")%string;
       platformType := "Phone"; deviceType := "Phone" |};
    {| userAgent :=
         ("(0MB; 0x0; 0x0; 0x0; oculus Oculus Questseacliff; 0) ROBLOX Android VR OculusQuest3Store RobloxApp/"
          ++ v ++ " (GlobalDist; OculusQuest3Store)")%string;
       platformType := "VR"; deviceType := "VR" |} ].

Record HeaderOperation := {
  header : string;
  operation : string;
  value : string
}.

Record RuleAction := {
  type : string;
  requestHeaders : option (list HeaderOperation);
  responseHeaders : option (list HeaderOperation)
}.

Record RuleCondition := {
  urlFilter : string;
  resourceTypes : list string
}.

Record Rule := {
  id : Z;
  priority : Z;
  action : RuleAction;
  condition : RuleCondition
}.

(** [s.replace(/{service}\.?/, "")] *)
Definition dropService (s : string) : string :=
  match JsString.search "{service}" s with
  | Some (before, after) =>
      (before ++ (if JsString.startsWith after "." then JsString.drop 1 after else after))%string
  | None => s
  end.

(** [array.map(cb)] for a callback that evaluates [idx++] once per element:
    the counter is threaded from left to right. *)
Fixpoint mapCounting {A B} (cb : Z -> A -> B) (items : list A) (idx : Z)
    : list B * Z :=
  match items with
  | [] => ([], idx)
  | item :: rest =>
      let b := cb idx item in
      let (bs, idx') := mapCounting cb rest (idx + 1) in
      (b :: bs, idx')
  end.

Section Rules.

(** [STATIC_RULES_START_ID] is imported from [src/ts/constants/dnrRules.ts];
    the rule generator only reads it, so it is a parameter here. *)
Variable STATIC_RULES_START_ID : Z.

Variables (target : Target) (isDev : bool) (version : string)
          (devServers : option DevServersAvailable)
          (robloxVersion : option string) (cspPolicy : string).

Definition appendString : string :=
  ("RoSealExtension (RoSeal/" ++ Target_toString target ++ "/" ++ version ++ "/"
   ++ (if isDev then "dev" else "prod") ++ ")")%string.

Definition userAgentRule (idx : Z) (item : UserAgentOverride) : Rule :=
  let d := getDomains target isDev devServers in
  {| id := idx;
     priority := 1;
     action :=
       {| type := "modifyHeaders";
          requestHeaders :=
            Some [ {| header := "user-agent"; operation := "set";
                      value := (userAgent item ++ " " ++ appendString)%string |} ];
          responseHeaders := None |};
     condition :=
       {| urlFilter :=
            ("||" ++ dropService (ROBLOX_DOMAIN d) ++ "/*"
             ++ ROSEAL_OVERRIDE_PLATFORM_TYPE_HEADER_NAME ++ "=" ++ platformType item)%string;
          resourceTypes := ["xmlhttprequest"] |} |}.

Definition securityPolicyRule (idx : Z) : Rule :=
  let d := getDomains target isDev devServers in
  {| id := idx;
     priority := 1;
     action :=
       {| type := "modifyHeaders";
          requestHeaders := None;
          responseHeaders :=
            Some [ {| header := CONTENT_SECURITY_POLICY_HEADER_NAME; operation := "set";
                      value :=
                        JsString.replace cspPolicy "img-src 'self'"
                          ("img-src 'self' " ++ TWEMOJI_EMOJI_BASE_URL d ++ " "
                           ++ FLUENTUI_EMOJI_BASE_URL d)%string |} ] |};
     condition :=
       {| urlFilter :=
            ("||" ++ JsString.replace (ROBLOX_DOMAIN d) "{service}" "www" ++ "/*")%string;
          resourceTypes := ["main_frame"; "sub_frame"] |} |}.

Definition trackingRule (idx : Z) : Rule :=
  let d := getDomains target isDev devServers in
  {| id := idx;
     priority := 1;
     action :=
       {| type := "modifyHeaders";
          requestHeaders :=
            Some [ {| header := "user-agent"; operation := "append";
                      value := appendString |} ];
          responseHeaders := None |};
     condition :=
       {| urlFilter :=
            ("||" ++ dropService (ROBLOX_DOMAIN d) ++ "/*"
             ++ ROSEAL_TRACKING_HEADER_NAME)%string;
          resourceTypes := ["xmlhttprequest"] |} |}.

(** The array [writeDNRRules] hands to [JSON.stringify]. *)
Definition writeDNRRules : list Rule :=
  let idx := STATIC_RULES_START_ID in
  let (overrides, idx1) :=
    mapCounting userAgentRule (getUserAgentOverrides robloxVersion) idx in
  overrides ++ [securityPolicyRule idx1; trackingRule (idx1 + 1)].

End Rules.

(** What a rule does, read back from its action. *)
Inductive RuleKind := UserAgentSet | SecurityPolicySet | UserAgentAppend.

Definition ruleKind (r : Rule) : option RuleKind :=
  match requestHeaders (action r), responseHeaders (action r) with
  | Some [h], None =>
      if String.eqb (header h) "user-agent" then
        if String.eqb (operation h) "set" then Some UserAgentSet
        else if String.eqb (operation h) "append" then Some UserAgentAppend
        else None
      else None
  | None, Some [h] =>
      if String.eqb (header h) CONTENT_SECURITY_POLICY_HEADER_NAME
         && String.eqb (operation h) "set"
      then Some SecurityPolicySet else None
  | _, _ => None
  end.

End DNR.

(* ------------------------------------------------------------------ *)
(** ** Promises, as far as the scripts observe them *)

Inductive Settled := fulfilled | rejected.

Definition isFulfilled (r : Settled) : bool :=
  match r with fulfilled => true | rejected => false end.

(* ------------------------------------------------------------------ *)
(** ** Build orchestrator ([build], build.ts 575-641) *)

Module Orchestrator.

Inductive Step :=
| BuildJS | WriteManifest | CopyAssets | WriteDNRRules
| WriteI18n | WriteHTMLFiles | CompileSCSS.

Inductive Event :=
| EmptyDir
| Mkdir
| GetManifest
| Launched (s : Step)
| Collected (s : Step) (r : Settled)
| ConvertToSafariExtension.

(** How every awaited operation of one run settles. *)
Record World := {
  emptyDir : Settled;
  mkdir : Settled;
  getManifest : Settled;
  step : Step -> Settled;
  convertToSafariExtension : Settled
}.

Inductive Thrown :=
| Rejection (by_ : Event)
| Message (text : string).

Inductive Completion (A : Type) :=
| Returned (a : A)
| Threw (t : Thrown).
Arguments Returned {A} a.
Arguments Threw {A} t.

(** An [async] body: it extends the trace of effects and returns or throws. *)
Definition Async (A : Type) : Type := list Event -> list Event * Completion A.

Definition ret {A} (a : A) : Async A := fun tr => (tr, Returned a).

Definition throw {A} (t : Thrown) : Async A := fun tr => (tr, Threw t).

Definition andThen {A B} (m : Async A) (k : A -> Async B) : Async B :=
  fun tr =>
    match m tr with
    | (tr', Returned a) => k a tr'
    | (tr', Threw t) => (tr', Threw t)
    end.

Notation "x <~ m ;; k" := (andThen m (fun x => k))
  (at level 61, m at next level, right associativity).
Notation "m ;;; k" := (andThen m (fun _ => k))
  (at level 61, right associativity).

(** [await op()] *)
Definition await (e : Event) (r : Settled) : Async unit :=
  fun tr =>
    match r with
    | fulfilled => (tr ++ [e], Returned tt)
    | rejected => (tr ++ [e], Threw (Rejection e))
    end.

(** Calling a step function starts it and yields its promise. *)
Definition launch (tasks : list Step) : Async (list Step) :=
  fun tr => (tr ++ map Launched tasks, Returned tasks).

(** [await Promise.allSettled(tasks)]: never throws, one outcome per task. *)
Definition allSettled (w : World) (tasks : list Step) : Async (list Settled) :=
  fun tr =>
    (tr ++ map (fun s => Collected s (step w s)) tasks,
     Returned (map (step w) tasks)).

Definition tasks : list Step :=
  [BuildJS; WriteManifest; CopyAssets; WriteDNRRules;
   WriteI18n; WriteHTMLFiles; CompileSCSS].

Definition build (targetBase : TargetBase) (w : World) : Async unit :=
  await EmptyDir (emptyDir w) ;;;
  await Mkdir (mkdir w) ;;;
  await GetManifest (getManifest w) ;;;
  started <~ launch tasks ;;
  result <~ allSettled w started ;;
  if forallb isFulfilled result then
    if TargetBase_eqb targetBase apple
    then await ConvertToSafariExtension (convertToSafariExtension w)
    else ret tt
  else throw (Message "Build failed with errors").

(** One run from an empty trace. *)
Definition run (targetBase : TargetBase) (w : World) : list Event * Completion unit :=
  build targetBase w [].

Definition prepared (w : World) : bool :=
  isFulfilled (emptyDir w) && isFulfilled (mkdir w) && isFulfilled (getManifest w).

End Orchestrator.

(* ------------------------------------------------------------------ *)
(** ** Dev server ([dev.ts]) *)

Module DevServer.

Definition Connection := nat.

(** [{ type }], before [JSON.stringify]. *)
Record Notification := { type : string }.

Inductive LogLine :=
| Log (text : string)
| Info (text : string)
| Error (text : string).

Record Server := {
  connections : list Connection;            (* Set: insertion order, no repeats *)
  sent : list (Connection * Notification);  (* every [connection.send] so far *)
  console : list LogLine
}.

(** [connections.add(ws)] *)
Definition open (ws : Connection) (s : Server) : Server :=
  {| connections :=
       if existsb (Nat.eqb ws) (connections s) then connections s
       else connections s ++ [ws];
     sent := sent s; console := console s |}.

(** [connections.delete(ws)] *)
Definition close (ws : Connection) (s : Server) : Server :=
  {| connections := filter (fun c => negb (Nat.eqb ws c)) (connections s);
     sent := sent s; console := console s |}.

Definition log (l : LogLine) (s : Server) : Server :=
  {| connections := connections s; sent := sent s; console := console s ++ [l] |}.

Definition clear (s : Server) : Server :=
  {| connections := connections s; sent := sent s; console := [] |}.

(** [updateLog(promise, text, failText)] (utils.ts 26-47): the handlers log,
    and the promise returned is the one passed in. *)
Definition updateLog (promise : Settled) (text : string) (failText : option string)
    (s : Server) : Server * Settled :=
  match promise with
  | fulfilled => (log (Info text) s, promise)
  | rejected =>
      (log (Error (match failText with Some f => f | None => text end)) s, promise)
  end.

Definition broadcast (n : Notification) (s : Server) : Server :=
  {| connections := connections s;
     sent := sent s ++ map (fun c => (c, n)) (connections s);
     console := console s |}.

(** [type] used as a condition. *)
Definition truthy (type : option string) : bool :=
  match type with
  | Some EmptyString => false
  | Some _ => true
  | None => false
  end.

(** [handleChange(value, type)] once [value] has settled: the callback of
    [.then] runs for a fulfilled promise only. *)
Definition handleChange (value : Settled) (type : option string) (s : Server)
    : Server * Settled :=
  let s1 := log (Log "Change detected, rebuilding necessary files...") (clear s) in
  let (s2, promise) := updateLog value "Rebuilt necessary files" None s1 in
  match promise with
  | fulfilled =>
      match type with
      | Some t => if truthy type then (broadcast {| type := t |} s2, fulfilled)
                  else (s2, fulfilled)
      | None => (s2, fulfilled)
      end
  | rejected => (s2, rejected)
  end.

(** The notifications [handleChange] itself sends. *)
Definition sentBy (value : Settled) (type : option string) (s : Server)
    : list (Connection * Notification) :=
  skipn (length (sent s)) (sent (fst (handleChange value type s))).

End DevServer.

(* ------------------------------------------------------------------ *)
(** ** Vocabulary of the statements and sample documents *)

(** [bind] twice: the transformer run on its own output. *)
Definition transformTwice (m : Manifest) (targetBase : TargetBase) (isDev : bool)
    (devServers : option DevServersAvailable) : Result Manifest :=
  out <- transformManifest m targetBase isDev devServers ;;
  transformManifest out targetBase isDev devServers.

(** Where the host permissions of a source end up in an output: the Gecko
    family has them in front of [permissions], the others in
    [host_permissions]. *)
Definition hostEntriesAre (source : Manifest) (targetBase : TargetBase)
    (out : Manifest) (entries : list string) : Prop :=
  match targetBase with
  | firefox => permissions out = Some (entries ++ orEmpty (permissions source))
  | _ => host_permissions out = Some entries
  end.

Definition hostEntriesUntouched (source : Manifest) (targetBase : TargetBase)
    (out : Manifest) : Prop :=
  match targetBase with
  | firefox =>
      permissions out
        = Some (orEmpty (host_permissions source) ++ orEmpty (permissions source))
  | _ => host_permissions out = host_permissions source
  end.

Definition set_version_fields (m : Manifest) (v vn : option string) : Manifest :=
  Build_Manifest (schema m) (manifest_version m) (name m) (short_name m) v
    (store_version m) vn (beta m) (permissions m) (host_permissions m)
    (optional_permissions m) (optional_host_permissions m) (web_accessible_resources m)
    (options_ui m) (action m) (browser_action m) (incognito m) (background m)
    (browser_specific_settings m) (key m) (minimum_chrome_version m) (other m).

Definition noSettings : BrowserSpecificSettings :=
  {| bs_id := None; bs_beta_id := None; bs_key := None; bs_beta_update_url := None;
     bs_strict_min_version := None; bs_strict_max_version := None |}.

Definition sampleChromeSettings : BrowserSpecificSettings :=
  {| bs_id := None; bs_beta_id := None; bs_key := Some "MIIBIjANBgkq";
     bs_beta_update_url := None; bs_strict_min_version := Some "120";
     bs_strict_max_version := None |}.

Definition sampleFirefoxSettings : FirefoxSettings :=
  {| fx_id := Some "extension@roseal.live";
     fx_beta_id := Some "beta@roseal.live";
     fx_key := None;
     fx_beta_update_url := Some "https://www.roseal.live/beta/updates.json";
     fx_strict_min_version := Some "115.0";
     fx_strict_max_version := None;
     fx_update_url := None;
     fx_android := Some noSettings |}.

(** The manifest of the end-to-end scenario: one host permission, one
    permission. *)
Definition sampleManifest : Manifest :=
  {| schema := Some "https://json.schemastore.org/chrome-manifest";
     manifest_version := 3;
     name := Some "RoSeal";
     short_name := Some "RoSeal";
     version := Some "2.0.0";
     store_version := Some "2.0.1";
     version_name := Some "__manifest_version__ (stable)";
     beta := None;
     permissions := Some ["storage"];
     host_permissions := Some ["*://example.com/*"];
     optional_permissions := Some ["cookies"; "notifications"];
     optional_host_permissions := Some ["*://*.rbxcdn.com/*"];
     web_accessible_resources :=
       Some (WarGroups
               [ {| resources := ["js/inject.js"; "js/inject.js.map"];
                    matches := Some ["*://*.roblox.com/*"];
                    extension_ids := None; use_dynamic_url := None |} ]);
     options_ui := None;
     action := Some (JObject [("default_popup", JString "html/popup.html")]);
     browser_action := None;
     incognito := Some "split";
     background :=
       Some {| service_worker := Some "js/background.js"; bg_type := Some "module";
               scripts := None |};
     browser_specific_settings :=
       Some {| bss_chrome := Some sampleChromeSettings;
               bss_firefox := Some sampleFirefoxSettings;
               bss_safari := None; bss_gecko := None; bss_gecko_android := None |};
     key := None;
     minimum_chrome_version := None;
     other := [("author", JString "roseal.live")] |}.

Definition sampleBetaManifest : Manifest := set_beta sampleManifest (Some true).

Definition allUnreachable : DevServersAvailable :=
  {| IS_DEV_API_ACCESSIBLE := false;
     IS_DEV_WWW_ACCESSIBLE := false;
     IS_DEV_WS_ACCESSIBLE := false |}.

(** The locale tree of the example scenario. *)
Definition sampleTree : I18n.File :=
  [("a", I18n.Detail None None None [("b", I18n.Str "Hello {name}")])].

(** The same tree with its namespace tagged for the manifest profile. *)
Definition sampleManifestTree : I18n.File :=
  [("a", I18n.Detail (Some [I18n.manifest]) None None
           [("b", I18n.Str "Hello {name}")])].

Definition allFulfilled : Orchestrator.World :=
  {| Orchestrator.emptyDir := fulfilled;
     Orchestrator.mkdir := fulfilled;
     Orchestrator.getManifest := fulfilled;
     Orchestrator.step := fun _ => fulfilled;
     Orchestrator.convertToSafariExtension := fulfilled |}.

Definition twoClients : DevServer.Server :=
  DevServer.open 2
    (DevServer.open 1
       {| DevServer.connections := []; DevServer.sent := []; DevServer.console := [] |}).

(* ------------------------------------------------------------------ *)
(** ** Proof automation *)

(** Runs the transformer symbolically on a source manifest: the record is
    opened, then the shape of its resources, the beta flag and the settings
    block are split. *)
Ltac open_manifest m :=
  let war := fresh "war" in
  let b := fresh "beta" in
  let bss := fresh "bss" in
  destruct m as [? ? ? ? ? ? ? b ? ? ? ? war ? ? ? ? ? bss ? ? ?];
  unfold isSourceManifest in *; simpl in *;
  destruct war as [[? | ?] | ]; try discriminate;
  destruct b as [[|] | ]; destruct bss as [bss | ].

Ltac split_groups :=
  repeat match goal with
         | |- context [stripGroups ?l] => destruct (stripGroups l)
         end.

Ltac run_transform :=
  unfold transformTwice, transformManifest, stripSourceMaps, addLocalhost, markBeta,
    familyShape, familySettings, appleStrip, flattenResources, isBeta;
  simpl; split_groups; simpl.

(* ------------------------------------------------------------------ *)
(** ** Command line ([getBuildArgs], build.ts 643-672) *)

Module Cli.

Definition TARGETS : list Target := [Chrome; Firefox; Edge; Safari].

(** [toLowerCase] on the ASCII letters. A character outside ASCII is left
    alone here; JavaScript maps none of them to a string of the letters that
    spell a target, so the test against [TARGETS] comes out the same. *)
Definition lowerAscii (c : ascii) : ascii :=
  let n := nat_of_ascii c in
  if Nat.leb 65 n && Nat.leb n 90 then ascii_of_nat (n + 32) else c.

Fixpoint toLowerCase (s : string) : string :=
  match s with
  | EmptyString => EmptyString
  | String c s' => String (lowerAscii c) (toLowerCase s')
  end.

Record BuildArguments := {
  isDev : bool;
  target : Target;
  targetBase : TargetBase
}.

(** The two option values as [parseArgs] delivers them: [None] is an option
    that was not passed, which takes its default (["chrome"], [false]). The
    right-hand result is the string thrown. *)
Definition getBuildArgs (targetOption : option string) (releaseOption : option bool)
    : BuildArguments + string :=
  let release := match releaseOption with Some b => b | None => false end in
  let name :=
    toLowerCase (match targetOption with Some s => s | None => "chrome" end) in
  match find (fun t => String.eqb (Target_toString t) name) TARGETS with
  | Some t =>
      inl {| isDev := negb release; target := t;
             targetBase := getTargetBaseFromTarget t |}
  | None =>
      inr ("--target must be one of: "
           ++ String.concat ", " (map Target_toString TARGETS))%string
  end.

End Cli.

(* ------------------------------------------------------------------ *)
(** ** Dev-server probes ([getDevServersAvailable], utils.ts 553-575) *)

(** [api] and [www] are how the two [fetch] calls settle; a production build
    does not issue them. *)
Definition getDevServersAvailable (isDev : bool) (isWsAccessible : option bool)
    (api www : Settled) : DevServersAvailable :=
  if negb isDev then
    {| IS_DEV_API_ACCESSIBLE := false;
       IS_DEV_WWW_ACCESSIBLE := false;
       IS_DEV_WS_ACCESSIBLE := false |}
  else
    {| IS_DEV_API_ACCESSIBLE := isFulfilled api;
       IS_DEV_WWW_ACCESSIBLE := isFulfilled www;
       IS_DEV_WS_ACCESSIBLE :=
         match isWsAccessible with Some true => true | _ => false end |}.

(* ------------------------------------------------------------------ *)
(** ** Build-time parameters ([getBuildTimeParams], utils.ts 582-604) *)

Module BuildTime.

Record BuildTimeParams := {
  robloxVersion : option string;
  cspPolicy : string
}.

Inductive Effect :=
| CacheExists
| CacheRead
| Fetch (url : string).

Record Environment := {
  (** [cachedBuildTime.json]: no file, or what reading it gives. *)
  cache : option (option BuildTimeParams);
  (** The client-version request: rejected, or the [version] property. *)
  clientVersion : option (option string);
  (** The home-page request: rejected, or its security-policy header. *)
  homePage : option (option string)
}.

Definition getBuildTimeParams (target : option Target) (isDev : bool)
    (devServersAvailable : option DevServersAvailable) (env : Environment)
    : list Effect * option BuildTimeParams :=
  match cache env with
  | Some cached => ([CacheExists; CacheRead], cached)
  | None =>
      let d :=
        DNR.getDomains (match target with Some t => t | None => Chrome end)
          isDev devServersAvailable in
      ([CacheExists;
        Fetch ("https://"
               ++ JsString.replace (DNR.ROBLOX_DOMAIN d) "{service}" "clientsettingscdn"
               ++ "/v2/client-version/WindowsPlayer")%string;
        Fetch ("https://" ++ JsString.replace (DNR.ROBLOX_DOMAIN d) "{service}" "www"
               ++ "/home")%string],
       match clientVersion env, homePage env with
       | Some v, Some h =>
           Some {| robloxVersion := v;
                   cspPolicy := match h with Some p => p | None => EmptyString end |}
       | _, _ => None
       end)
  end.

Definition isFetch (e : Effect) : bool :=
  match e with Fetch _ => true | _ => false end.

End BuildTime.

(* ------------------------------------------------------------------ *)
(** ** Release packaging ([buildRedistribution.ts] 20-58) *)

Module Distribution.

Inductive Event :=
| Build (e : Orchestrator.Event)
| Zip
| Sign
| MoveArtifact
| Remove.





End Distribution.

(* ------------------------------------------------------------------ *)
(** ** Static copy for Firefox ([copy-static.mjs] 11-52) *)

Module CopyStatic.

Record Background := {
  service_worker : option string;
  type : option string;
  scripts : option (list string);
  rest : list (string * Json)
}.

(** The manifest as [JSON.parse] gives it; a permission list that is not an
    array is [None]; permissions are strings. *)
Record Manifest := {
  manifest_version : Json;
  background : option Background;
  host_permissions : option (list string);
  permissions : option (list string);
  browser_specific_settings : option Json;
  other : list (string * Json)
}.

(** A string used as a condition. *)
Definition truthy (s : option string) : bool :=
  match s with
  | Some EmptyString => false
  | Some _ => true
  | None => false
  end.





End CopyStatic.

(* ------------------------------------------------------------------ *)
(** ** Vocabulary of the further statements *)

(** The three tests and steps of the source-map pass, by name. *)
Definition notMap (item : string) : bool := negb (JsString.endsWith item ".map").

Definition clean (data : WebAccessibleResource) : WebAccessibleResource :=
  set_resources data (filter notMap (resources data)).

Definition nonEmpty (item : WebAccessibleResource) : bool :=
  Nat.ltb 0 (length (resources item)).

(** What a non-development build for the Chromium or the Apple family leaves
    of the resource groups of a source: the groups without their [.map]
    files, none of them empty, every other resource still under the match
    patterns of its group; no key when nothing is left. *)
Definition packagedGroups (groups : list WebAccessibleResource)
    (war : option WebAccessibleResources) : Prop :=
  match war with
  | Some (WarGroups kept) =>
      kept <> []
      /\ (forall g, In g kept ->
            resources g <> []
            /\ (forall r, In r (resources g) -> JsString.endsWith r ".map" = false)
            /\ exists g0,
                 In g0 groups
                 /\ g = set_resources g0
                          (filter (fun item => negb (JsString.endsWith item ".map"))
                                  (resources g0)))
      /\ (forall g0 r,
            In g0 groups -> In r (resources g0) ->
            JsString.endsWith r ".map" = false ->
            exists g, In g kept /\ In r (resources g) /\ matches g = matches g0)
  | Some (WarFlat _) => False
  | None =>
      forall g0 r, In g0 groups -> In r (resources g0) ->
                   JsString.endsWith r ".map" = true
  end.

Definition sampleGroups : list WebAccessibleResource :=
  match web_accessible_resources sampleManifest with
  | Some (WarGroups groups) => groups
  | _ => []
  end.

(** A run in which the manifest cannot be read. *)
Definition manifestUnreadable : Orchestrator.World :=
  {| Orchestrator.emptyDir := fulfilled;
     Orchestrator.mkdir := fulfilled;
     Orchestrator.getManifest := rejected;
     Orchestrator.step := fun _ => fulfilled;
     Orchestrator.convertToSafariExtension := fulfilled |}.

(** An ICU element together with everything nested in its branches. *)
Inductive within : I18n.Element -> I18n.Element -> Prop :=
| within_self (e : I18n.Element) : within e e
| within_select (e x : I18n.Element) (v name : string)
    (options : list (string * list I18n.Element)) (branch : list I18n.Element) :
    In (name, branch) options -> In x branch -> within e x ->
    within e (I18n.Select v options)
| within_plural (e x : I18n.Element) (v name : string)
    (options : list (string * list I18n.Element)) (branch : list I18n.Element) :
    In (name, branch) options -> In x branch -> within e x ->
    within e (I18n.Plural v options)
| within_tag (e x : I18n.Element) (v : string) (children : list I18n.Element) :
    In x children -> within e x -> within e (I18n.Tag v children).

(** Induction over an ICU element, branches and children included. *)
Fixpoint Element_ind_nested (P : I18n.Element -> Prop)
    (HLiteral : forall v, P (I18n.Literal v))
    (HArgument : forall v, P (I18n.Argument v))
    (HNumber : forall v, P (I18n.Number v))
    (HDate : forall v, P (I18n.Date v))
    (HTime : forall v, P (I18n.Time v))
    (HSelect : forall v options,
        Forall (fun o => Forall P (snd o)) options -> P (I18n.Select v options))
    (HPlural : forall v options,
        Forall (fun o => Forall P (snd o)) options -> P (I18n.Plural v options))
    (HPound : P I18n.Pound)
    (HTag : forall v children, Forall P children -> P (I18n.Tag v children))
    (e : I18n.Element) {struct e} : P e :=
  let rec := Element_ind_nested P HLiteral HArgument HNumber HDate HTime
               HSelect HPlural HPound HTag in
  let all :=
    fix all (l : list I18n.Element) : Forall P l :=
      match l with
      | [] => Forall_nil _
      | x :: l' => Forall_cons x (rec x) (all l')
      end in
  let branches :=
    fix branches (o : list (string * list I18n.Element))
      : Forall (fun o => Forall P (snd o)) o :=
      match o with
      | [] => Forall_nil _
      | b :: o' => Forall_cons b (all (snd b)) (branches o')
      end in
  match e with
  | I18n.Literal v => HLiteral v
  | I18n.Argument v => HArgument v
  | I18n.Number v => HNumber v
  | I18n.Date v => HDate v
  | I18n.Time v => HTime v
  | I18n.Select v options => HSelect v options (branches options)
  | I18n.Plural v options => HPlural v options (branches options)
  | I18n.Pound => HPound
  | I18n.Tag v children => HTag v children (all children)
  end.

(** What every entry of an extracted catalog looks like: a message that is
    not empty, and a context only when contexts were asked for. *)
Definition entryWellFormed (includeContext : bool) (e : I18n.Entry) : Prop :=
  (exists s, I18n.e_message e = Some s /\ s <> EmptyString)
  /\ (includeContext = false -> I18n.e_context e = None).

Definition allWellFormed (includeContext : bool) (t : I18n.Transform) : Prop :=
  forall k e, In (k, e) t -> entryWellFormed includeContext e.

(** The states the dev server can be in: it starts without a connection and
    then opens and closes connections and handles changes. *)
Inductive reachable : DevServer.Server -> Prop :=
| reachable_start :
    reachable {| DevServer.connections := []; DevServer.sent := [];
                 DevServer.console := [] |}
| reachable_open (ws : DevServer.Connection) (s : DevServer.Server) :
    reachable s -> reachable (DevServer.open ws s)
| reachable_close (ws : DevServer.Connection) (s : DevServer.Server) :
    reachable s -> reachable (DevServer.close ws s)
| reachable_change (value : Settled) (type : option string) (s : DevServer.Server) :
    reachable s -> reachable (fst (DevServer.handleChange value type s)).

(** One occurrence of [pat] in [s], with what stands before and after it. *)
Definition occursAt (pat s before after : string) : Prop :=
  s = (before ++ pat ++ after)%string.

(** The occurrence no other one starts before. *)
Definition firstOccurrence (pat s before after : string) : Prop :=
  occursAt pat s before after
  /\ forall before' after',
       occursAt pat s before' after' ->
       String.length before <= String.length before'.

(** No [$] in a replacement text: nothing for [replace] to expand. *)
Fixpoint plainText (s : string) : bool :=
  match s with
  | EmptyString => true
  | String c s' => negb (Ascii.eqb c "$") && plainText s'
  end.

(* ================================================================== *)
(** * Sanity checks of the string primitives *)

Example endsWith_map : JsString.endsWith "js/inject.js.map" ".map" = true.
Proof. reflexivity. Qed.

Example endsWith_short : JsString.endsWith "map" ".map" = false.
Proof. reflexivity. Qed.

Example replace_first_only :
  JsString.replace "v__manifest_version__ / __manifest_version__"
    "__manifest_version__" "2.0.0"
  = "v2.0.0 / __manifest_version__".
Proof. reflexivity. Qed.

Example replace_dollar_patterns :
  JsString.replace "a-b-c" "b" "[$&|$$|$`|$'|$1]" = "a-[b|$|a-|-c|$1]-c".
Proof. reflexivity. Qed.

Example replaceAll_dots : JsString.replaceAllChar "a.b.c" "." "_" = "a_b_c".
Proof. reflexivity. Qed.

Example dropService_roblox : DNR.dropService "{service}.roblox.com" = "roblox.com".
Proof. reflexivity. Qed.

Example parse_hello :
  I18n.parseMessage "Hello {name}"
  = Some [I18n.Literal "Hello "; I18n.Argument "name"].
Proof. reflexivity. Qed.

(** Nested branches are searched and repeated names counted once. *)
Example arguments_of_plural :
  I18n.dedupe
    (filter I18n.isArgument
       (flat_map I18n.handleItem
          [I18n.Plural "count"
             [("one", [I18n.Pound; I18n.Literal " item of "; I18n.Argument "owner"]);
              ("other", [I18n.Pound; I18n.Literal " items of "; I18n.Argument "owner"])]]))
    []
  = ["count"; "owner"].
Proof. reflexivity. Qed.

(* ================================================================== *)
(** * Properties of the manifest transformer *)

Section ManifestTransformer.

Variables (isDev : bool) (devServers : option DevServersAvailable).

(** The transformer returns on every source manifest, for every family. *)
Lemma transformManifest_total (m : Manifest) (targetBase : TargetBase) :
  isSourceManifest m = true ->
  exists out, transformManifest m targetBase isDev devServers = Ok out.
Proof.
  intros H. open_manifest m; destruct targetBase, isDev, devServers;
    run_transform; eauto.
Qed.

(** What the Gecko spread makes of the permission lists. *)
Lemma transformManifest_firefox_permissions (m : Manifest) :
  isSourceManifest m = true ->
  exists out,
    transformManifest m firefox isDev devServers = Ok out
    /\ manifest_version out = 2%Z
    /\ host_permissions out = None
    /\ optional_host_permissions out = None
    /\ permissions out
       = Some (orEmpty (host_permissions (addLocalhost isDev devServers m))
               ++ orEmpty (permissions m))
    /\ optional_permissions out
       = Some (orEmpty (optional_host_permissions m)
               ++ orEmpty (optional_permissions m)).
Proof.
  intros H. open_manifest m; destruct isDev, devServers;
    run_transform; eexists; repeat split; reflexivity.
Qed.

(** The other families keep [host_permissions] as the dev-server step left
    them. *)
Lemma transformManifest_other_host_permissions (m : Manifest) (targetBase : TargetBase) :
  isSourceManifest m = true ->
  targetBase <> firefox ->
  exists out,
    transformManifest m targetBase isDev devServers = Ok out
    /\ host_permissions out
       = host_permissions (addLocalhost isDev devServers m).
Proof.
  intros H Ht. open_manifest m; destruct targetBase; try congruence;
    destruct isDev, devServers; run_transform;
    eexists; split; reflexivity.
Qed.

End ManifestTransformer.

Lemma host_permissions_addLocalhost (isDev : bool)
    (devServers : option DevServersAvailable) (m : Manifest) :
  host_permissions (addLocalhost isDev devServers m)
  = match devServers with
    | Some _ =>
        if isDev then Some (orEmpty (host_permissions m) ++ ["*://localhost/*"])
        else host_permissions m
    | None => host_permissions m
    end.
Proof.
  unfold addLocalhost; destruct devServers, isDev; reflexivity.
Qed.

(** C1: for the Gecko family the output has manifest_version 2, no
    host_permissions key, and a permissions list holding every host
    permission and every permission of the source; a production build of a
    source with host_permissions ["*://example.com/*"] and permissions
    ["storage"] has exactly these two entries in its permissions. *)
Theorem C1_gecko_permissions (m : Manifest) (isDev : bool)
    (devServers : option DevServersAvailable) :
  isSourceManifest m = true ->
  exists out,
    transformManifest m firefox isDev devServers = Ok out
    /\ manifest_version out = 2%Z
    /\ host_permissions out = None
    /\ (forall p,
          In p (orEmpty (host_permissions m)) \/ In p (orEmpty (permissions m)) ->
          In p (orEmpty (permissions out)))
    /\ (isDev = false ->
        host_permissions m = Some ["*://example.com/*"] ->
        permissions m = Some ["storage"] ->
        forall p,
          In p (orEmpty (permissions out))
          <-> p = "*://example.com/*" \/ p = "storage").
Proof.
  intros H.
  destruct (transformManifest_firefox_permissions isDev devServers m H)
    as (out & E & Hv & Hh & _ & Hp & _).
  exists out. rewrite Hp, host_permissions_addLocalhost. simpl.
  split; [exact E | split; [exact Hv | split; [exact Hh | split]]].
  - intros p [Hin | Hin]; apply in_or_app; [left | right; exact Hin].
    destruct devServers, isDev; simpl; auto; apply in_or_app; left; exact Hin.
  - intros Hprod Hhost Hperm p. subst isDev. rewrite Hhost, Hperm.
    destruct devServers; simpl; intuition.
Qed.

Lemma C1_gecko_permissions_witness :
  exists out,
    transformManifest sampleManifest firefox false None = Ok out
    /\ manifest_version out = 2%Z
    /\ host_permissions out = None
    /\ (forall p,
          In p (orEmpty (host_permissions sampleManifest))
          \/ In p (orEmpty (permissions sampleManifest)) ->
          In p (orEmpty (permissions out)))
    /\ (false = false ->
        host_permissions sampleManifest = Some ["*://example.com/*"] ->
        permissions sampleManifest = Some ["storage"] ->
        forall p,
          In p (orEmpty (permissions out))
          <-> p = "*://example.com/*" \/ p = "storage").
Proof.
  apply (C1_gecko_permissions sampleManifest false None). reflexivity.
Defined.

(** C10: for the Gecko family the output's optional_permissions is the
    source's optional_host_permissions followed by its optional_permissions,
    and the optional_host_permissions key is absent. *)
Theorem C10_gecko_optional_permissions (m : Manifest) (isDev : bool)
    (devServers : option DevServersAvailable) :
  isSourceManifest m = true ->
  exists out,
    transformManifest m firefox isDev devServers = Ok out
    /\ optional_permissions out
       = Some (orEmpty (optional_host_permissions m)
               ++ orEmpty (optional_permissions m))
    /\ optional_host_permissions out = None.
Proof.
  intros H.
  destruct (transformManifest_firefox_permissions isDev devServers m H)
    as (out & E & _ & _ & Hoh & _ & Hop).
  exists out; auto.
Qed.

Lemma C10_gecko_optional_permissions_witness :
  exists out,
    transformManifest sampleManifest firefox true (Some allUnreachable) = Ok out
    /\ optional_permissions out
       = Some (orEmpty (optional_host_permissions sampleManifest)
               ++ orEmpty (optional_permissions sampleManifest))
    /\ optional_host_permissions out = None.
Proof.
  apply (C10_gecko_optional_permissions sampleManifest true (Some allUnreachable)).
  reflexivity.
Defined.

(** C9: for the Chromium family with a settings block in the source, the
    top-level key is taken from the chrome settings in development mode only
    (a production build keeps whatever key the source had at top level);
    minimum_chrome_version is the chrome settings' strict_min_version and the
    settings block is gone, in both modes. *)
Theorem C9_chromium_settings (m : Manifest) (isDev : bool)
    (devServers : option DevServersAvailable) (bss : SettingsBlock) :
  isSourceManifest m = true ->
  browser_specific_settings m = Some bss ->
  exists out,
    transformManifest m chromium isDev devServers = Ok out
    /\ key out = (if isDev then optField (bss_chrome bss) bs_key else key m)
    /\ minimum_chrome_version out = optField (bss_chrome bss) bs_strict_min_version
    /\ browser_specific_settings out = None.
Proof.
  intros H Hb. open_manifest m; inversion Hb; subst;
    destruct isDev, devServers; run_transform;
    eexists; repeat split; reflexivity.
Qed.

Lemma C9_chromium_settings_witness :
  exists out,
    transformManifest sampleManifest chromium false None = Ok out
    /\ key out = key sampleManifest
    /\ minimum_chrome_version out = Some "120"
    /\ browser_specific_settings out = None.
Proof.
  exact (C9_chromium_settings sampleManifest false None _ eq_refl eq_refl).
Defined.

(** The Gecko identity block of a production beta build: both the
    identifier and the update URL are read from [beta_id]. *)
Lemma gecko_identity_of_beta_build (m : Manifest)
    (devServers : option DevServersAvailable) (bss : SettingsBlock)
    (fx : FirefoxSettings) :
  isSourceManifest m = true ->
  isBeta m = true ->
  browser_specific_settings m = Some bss ->
  bss_firefox bss = Some fx ->
  exists out gecko,
    transformManifest m firefox false devServers = Ok out
    /\ optField (browser_specific_settings out) bss_gecko = Some gecko
    /\ fx_id gecko = fx_beta_id fx
    /\ fx_update_url gecko = fx_beta_id fx.
Proof.
  intros H Hbeta Hb Hfx. unfold isBeta in Hbeta.
  open_manifest m; try discriminate; inversion Hb; subst;
    destruct devServers; run_transform; rewrite Hfx; simpl;
    do 2 eexists; repeat split; reflexivity.
Qed.

(** C2, evaluated at a beta manifest whose firefox settings carry distinct
    beta_id and beta_update_url: the gecko block of the production build has
    the beta identifier in both id and update_url, and the configured beta
    update URL appears nowhere. *)
Theorem C2_beta_update_url_is_beta_id :
  exists out gecko,
    transformManifest sampleBetaManifest firefox false None = Ok out
    /\ optField (browser_specific_settings out) bss_gecko = Some gecko
    /\ fx_beta_id sampleFirefoxSettings = Some "beta@roseal.live"
    /\ fx_beta_update_url sampleFirefoxSettings
       = Some "https://www.roseal.live/beta/updates.json"
    /\ fx_id gecko = Some "beta@roseal.live"
    /\ fx_update_url gecko = Some "beta@roseal.live"
    /\ fx_update_url gecko <> fx_beta_update_url sampleFirefoxSettings.
Proof.
  do 2 eexists. split; [vm_compute; reflexivity | ].
  simpl. repeat split; discriminate.
Qed.

(** C3 as stated fails: in a development build with a reachability record
    that reports every dev server unreachable, the localhost wildcard is
    appended all the same. *)
Lemma C3_counterexample :
  exists out,
    transformManifest sampleManifest chromium true (Some allUnreachable) = Ok out
    /\ IS_DEV_API_ACCESSIBLE allUnreachable = false
    /\ host_permissions out
       = Some (orEmpty (host_permissions sampleManifest) ++ ["*://localhost/*"]).
Proof.
  eexists. split; [vm_compute; reflexivity | split; reflexivity].
Qed.

(** C3, amended: in a development build the localhost wildcard is appended
    to the host permissions whenever a reachability record is passed,
    whatever its flags; without a record, or in a non-development build, the
    host permissions are left as the source has them. *)
Theorem C3_localhost_when_record_given (m : Manifest) (targetBase : TargetBase)
    (isDev : bool) (devServers : option DevServersAvailable) :
  isSourceManifest m = true ->
  exists out,
    transformManifest m targetBase isDev devServers = Ok out
    /\ match devServers with
       | Some _ =>
           if isDev
           then hostEntriesAre m targetBase out
                  (orEmpty (host_permissions m) ++ ["*://localhost/*"])
           else hostEntriesUntouched m targetBase out
       | None => hostEntriesUntouched m targetBase out
       end.
Proof.
  intros H.
  destruct targetBase.
  - destruct (transformManifest_other_host_permissions isDev devServers m chromium H)
      as (out & E & Hh); [discriminate | ].
    exists out; split; [exact E | ].
    rewrite host_permissions_addLocalhost in Hh.
    destruct devServers, isDev; exact Hh.
  - destruct (transformManifest_firefox_permissions isDev devServers m H)
      as (out & E & _ & _ & _ & Hp & _).
    exists out; split; [exact E | ].
    rewrite host_permissions_addLocalhost in Hp.
    destruct devServers, isDev; exact Hp.
  - destruct (transformManifest_other_host_permissions isDev devServers m apple H)
      as (out & E & Hh); [discriminate | ].
    exists out; split; [exact E | ].
    rewrite host_permissions_addLocalhost in Hh.
    destruct devServers, isDev; exact Hh.
Qed.

Lemma C3_localhost_when_record_given_witness :
  exists out,
    transformManifest sampleManifest firefox true (Some allUnreachable) = Ok out
    /\ hostEntriesAre sampleManifest firefox out
         (orEmpty (host_permissions sampleManifest) ++ ["*://localhost/*"]).
Proof.
  exact (C3_localhost_when_record_given sampleManifest firefox true
           (Some allUnreachable) eq_refl).
Defined.

(** *** A second pass over an output *)

Lemma filter_twice {A} (f : A -> bool) (l : list A) :
  filter f (filter f l) = filter f l.
Proof.
  induction l as [| a l IH]; simpl; [reflexivity | ].
  destruct (f a) eqn:E; simpl; [rewrite E, IH | ]; auto.
Qed.

(** What is left after the source-map pass is left alone by another one. *)
Lemma stripGroups_fixed (groups kept : list WebAccessibleResource) :
  stripGroups groups = Some kept -> stripGroups kept = Some kept.
Proof.
  unfold stripGroups.
  set (clean := fun data : WebAccessibleResource =>
                  set_resources data
                    (filter (fun item => negb (JsString.endsWith item ".map"))
                            (resources data))).
  set (nonEmpty := fun item : WebAccessibleResource =>
                     Nat.ltb 0 (length (resources item))).
  assert (Hclean : forall d, clean (clean d) = clean d).
  { intros d; unfold clean, set_resources; simpl. now rewrite filter_twice. }
  assert (Hmap : forall gs,
             map clean (filter nonEmpty (map clean gs))
             = filter nonEmpty (map clean gs)).
  { induction gs as [| g gs IH]; simpl; [reflexivity | ].
    destruct (nonEmpty (clean g)); simpl; [rewrite Hclean, IH | ]; auto. }
  destruct (Nat.eqb (length (filter nonEmpty (map clean groups))) 0) eqn:E;
    intros Hk; inversion Hk; subst kept.
  rewrite Hmap, filter_twice, E. reflexivity.
Qed.

(** C8 as stated fails: a second production pass for the Chromium family
    finds no store_version and leaves version absent. *)
Lemma C8_counterexample :
  transformTwice sampleManifest chromium false None
  <> transformManifest sampleManifest chromium false None.
Proof.
  vm_compute. discriminate.
Qed.

(** C8, amended: for a non-development build for the Chromium or the Apple
    family, a second pass over the output reproduces it except for version,
    which becomes absent (the first pass moved store_version into version
    and removed it), and version_name, whose placeholder is substituted
    once more. *)
Theorem C8_second_pass_production (m : Manifest) (targetBase : TargetBase)
    (devServers : option DevServersAvailable) :
  isSourceManifest m = true ->
  targetBase <> firefox ->
  exists out,
    transformManifest m targetBase false devServers = Ok out
    /\ transformManifest out targetBase false devServers
       = Ok (set_version_fields out None
               (option_map
                  (fun vn => JsString.replace vn "__manifest_version__"
                               (JsString.interpolate (version out)))
                  (version_name out))).
Proof.
  intros H Ht.
  destruct m as [? ? ? ? ? ? ? b ? ? opt ? war ? ? ? ? ? bss ? ? ?].
  unfold isSourceManifest in H; simpl in H.
  destruct war as [[groups | ?] | ]; try discriminate;
    destruct targetBase; try congruence;
    destruct b as [[|] | ]; destruct bss as [bss | ]; destruct devServers;
    unfold transformManifest, stripSourceMaps, addLocalhost, markBeta,
      familyShape, familySettings, appleStrip, isBeta; simpl;
    try (destruct (stripGroups groups) as [kept | ] eqn:E; simpl;
         [ eexists; split; [reflexivity | ]; simpl;
           rewrite (stripGroups_fixed _ _ E); simpl
         | eexists; split; [reflexivity | ]; simpl ]);
    try (eexists; split; [reflexivity | ]; simpl);
    try (destruct opt as [opt | ]; simpl; rewrite ?filter_twice);
    reflexivity.
Qed.

Lemma C8_second_pass_production_witness :
  exists out,
    transformManifest sampleManifest apple false None = Ok out
    /\ transformManifest out apple false None
       = Ok (set_version_fields out None
               (option_map
                  (fun vn => JsString.replace vn "__manifest_version__"
                               (JsString.interpolate (version out)))
                  (version_name out))).
Proof.
  apply (C8_second_pass_production sampleManifest apple None);
    [reflexivity | discriminate].
Defined.

(* ================================================================== *)
(** * Properties of the locale extractor *)

Section LocaleExtractor.

Import I18n.

Lemma hasDot_replaceAllChar (s : string) :
  hasDot (JsString.replaceAllChar s "." "_") = false.
Proof.
  induction s as [| c s IH]; simpl; [reflexivity | ].
  destruct (Ascii.eqb c ".") eqn:E; simpl; [exact IH | now rewrite E].
Qed.

Lemma setKeyOf_manifest_no_dot (namespace : option string) (key : string) :
  hasDot (setKeyOf (Some [manifest]) namespace key) = false.
Proof.
  unfold setKeyOf; simpl. apply hasDot_replaceAllChar.
Qed.

Lemma keys_assign (t : Transform) (k : string) (e : Entry) (k' : string) :
  In k' (keys (assign t k e)) -> k' = k \/ In k' (keys t).
Proof.
  unfold keys. induction t as [| [k0 e0] t IH]; simpl.
  - intros [<- | []]; auto.
  - destruct (String.eqb k0 k) eqn:E; simpl.
    + intros [<- | Hin]; auto.
    + intros [<- | Hin]; auto. destruct (IH Hin); auto.
Qed.

(** Under the manifest-only profile no key of the catalog holds a dot. *)
Lemma handleProperty_manifest_dotFree (value : Value) :
  forall includeContext namespace given currentContext key transform,
    dotFree transform ->
    dotFree (handleProperty (Some [manifest]) includeContext namespace given
               currentContext key value transform).
Proof.
  induction value as [s | nodeTypes message context children IH]
    using Value_rect_nested;
    intros includeContext namespace given currentContext key transform Ht;
    simpl; destruct (JsString.startsWith key "$"); try exact Ht.
  - destruct (Nat.eqb (String.length s) 0); [exact Ht | ].
    intros k Hk. apply keys_assign in Hk as [-> | Hk]; auto.
    apply setKeyOf_manifest_no_dot.
  - match goal with
    | |- dotFree (if ?gate then _ else _) => destruct gate; [exact Ht | ]
    end.
    match goal with
    | |- dotFree (_ children ?t1) => assert (H1 : dotFree t1); [ | generalize t1 H1 ]
    end.
    { destruct (truthy message); [ | exact Ht ].
      intros k Hk. apply keys_assign in Hk as [-> | Hk]; auto.
      apply setKeyOf_manifest_no_dot. }
    induction IH as [| [k v] rest Hv _ IHrest]; intros acc Hacc; [exact Hacc | ].
    apply IHrest. apply Hv. exact Hacc.
Qed.

Lemma handleI18NNamespace_manifest_dotFree (data : File) (includeContext : bool)
    (currentContext : option string) :
  dotFree (handleI18NNamespace data (Some [manifest]) None None includeContext
             currentContext).
Proof.
  unfold handleI18NNamespace, handleProperties.
  assert (H : dotFree []) by (intros k []).
  revert H. generalize (@nil (string * Entry)).
  induction data as [| [k v] rest IH]; intros acc Hacc; simpl; [exact Hacc | ].
  apply IH. now apply handleProperty_manifest_dotFree.
Qed.

(** An untagged top-level namespace belongs to [main]: a profile without
    [main] skips it. *)
Lemma untagged_namespace_skipped (types : list Env) (key : string)
    (message context : option string) (children : list (string * Value))
    (includeContext : bool) (currentContext : option string) :
  includes types main = false ->
  handleI18NNamespace [(key, Detail None message context children)] (Some types)
    None None includeContext currentContext = [].
Proof.
  intros H. unfold handleI18NNamespace, handleProperties; simpl.
  destruct (JsString.startsWith key "$"); [reflexivity | ].
  unfold gatedOut; simpl. rewrite H; reflexivity.
Qed.

End LocaleExtractor.

(** C4 as stated fails in its last part: under the manifest-only profile the
    tree yields no key at all, because the untagged namespace [a] counts as
    [main] only. *)
Lemma C4_counterexample :
  I18n.keys
    (I18n.handleI18NNamespace sampleTree (Some [I18n.manifest]) None None false None)
  <> ["a_b"].
Proof.
  vm_compute. discriminate.
Qed.

(** C4, amended: under profile main the tree extracts to exactly the key
    "a.b", whose message has the argument set {"name"} (the same under the
    four profiles of the type generator); under the manifest-only profile
    the tree extracts to no key, its namespace being untagged; once the
    namespace is tagged for the manifest profile, it extracts to exactly the
    key "a_b". *)
Theorem C4_example_scenario :
  I18n.keys
    (I18n.handleI18NNamespace sampleTree (Some [I18n.main]) None None false None)
  = ["a.b"]
  /\ I18n.keys
       (I18n.handleI18NNamespace sampleTree (Some I18n.typesFileEnvs) None None
          false None)
     = ["a.b"]
  /\ option_map (I18n.argumentNames I18n.parseMessage)
       (I18n.lookup
          (I18n.handleI18NNamespace sampleTree (Some I18n.typesFileEnvs) None None
             false None)
          "a.b")
     = Some (Some ["name"])
  /\ I18n.handleI18NNamespace sampleTree (Some [I18n.manifest]) None None false None
     = []
  /\ I18n.keys
       (I18n.handleI18NNamespace sampleManifestTree (Some [I18n.manifest]) None None
          false None)
     = ["a_b"].
Proof.
  repeat split; reflexivity.
Qed.

(* ================================================================== *)
(** * Properties of the rule generator *)

Section RuleGenerator.

Import DNR.

Variable STATIC_RULES_START_ID : Z.

Context {A B : Type} (cb : Z -> A -> B).

(** The counter threaded through [map]: element [i] sees [start + i]. *)
Lemma mapCounting_from (items : list A) (k : nat) :
  mapCounting cb items (STATIC_RULES_START_ID + Z.of_nat k)
  = (map (fun p => cb (STATIC_RULES_START_ID + Z.of_nat (fst p)) (snd p))
         (combine (seq k (length items)) items),
     (STATIC_RULES_START_ID + Z.of_nat (k + length items))%Z).
Proof.
  revert k. induction items as [| item rest IH]; intros k; simpl.
  - now rewrite Nat.add_0_r.
  - replace (STATIC_RULES_START_ID + Z.of_nat k + 1)%Z
      with (STATIC_RULES_START_ID + Z.of_nat (S k))%Z by lia.
    rewrite IH. simpl. do 3 f_equal. lia.
Qed.

End RuleGenerator.

(** Consecutive identifiers grow strictly and never repeat. *)
Lemma consecutive_increasing (start : Z) (n i j : nat) :
  (i < j < n)%nat ->
  (nth i (map (fun i => (start + Z.of_nat i)%Z) (seq 0 n)) 0
   < nth j (map (fun i => (start + Z.of_nat i)%Z) (seq 0 n)) 0)%Z.
Proof.
  intros [Hij Hjn].
  rewrite !(nth_indep _ 0%Z (start + Z.of_nat 0)%Z)
    by (rewrite length_map, length_seq; lia).
  rewrite !(map_nth (fun i => (start + Z.of_nat i)%Z)).
  rewrite !seq_nth by lia. lia.
Qed.

Lemma consecutive_NoDup (start : Z) (n : nat) :
  NoDup (map (fun i => (start + Z.of_nat i)%Z) (seq 0 n)).
Proof.
  apply NoDup_map_NoDup_ForallPairs; [ | apply seq_NoDup].
  intros a b _ _ H; lia.
Qed.

(** C5: the ids of the emitted array are STATIC_RULES_START_ID,
    STATIC_RULES_START_ID + 1, ... in emission order, hence strictly
    increasing, without gap and without duplicate; the array holds one
    user-agent-override rule per device profile, in the order of the
    profiles, then the security-policy rule, then the tracking-header append
    rule. *)
Theorem C5_rule_ids_consecutive (STATIC_RULES_START_ID : Z) (target : Target)
    (isDev : bool) (version : string) (devServers : option DevServersAvailable)
    (robloxVersion : option string) (cspPolicy : string) :
  let rules :=
    DNR.writeDNRRules STATIC_RULES_START_ID target isDev version devServers
      robloxVersion cspPolicy in
  let profiles := DNR.getUserAgentOverrides robloxVersion in
  map DNR.id rules
  = map (fun i => (STATIC_RULES_START_ID + Z.of_nat i)%Z) (seq 0 (length rules))
  /\ (forall i j, (i < j < length rules)%nat ->
        (nth i (map DNR.id rules) 0 < nth j (map DNR.id rules) 0)%Z)
  /\ NoDup (map DNR.id rules)
  /\ length rules = (length profiles + 2)%nat
  /\ firstn (length profiles) rules
     = map (fun p =>
              DNR.userAgentRule target isDev version devServers
                (STATIC_RULES_START_ID + Z.of_nat (fst p)) (snd p))
           (combine (seq 0 (length profiles)) profiles)
  /\ map DNR.ruleKind rules
     = map (fun _ => Some DNR.UserAgentSet) profiles
       ++ [Some DNR.SecurityPolicySet; Some DNR.UserAgentAppend].
Proof.
  intros rules profiles.
  assert (Hrules :
    rules
    = map (fun p =>
             DNR.userAgentRule target isDev version devServers
               (STATIC_RULES_START_ID + Z.of_nat (fst p)) (snd p))
          (combine (seq 0 (length profiles)) profiles)
      ++ [DNR.securityPolicyRule target isDev devServers cspPolicy
            (STATIC_RULES_START_ID + Z.of_nat (length profiles));
          DNR.trackingRule target isDev version devServers
            (STATIC_RULES_START_ID + Z.of_nat (length profiles) + 1)]).
  { subst rules; unfold DNR.writeDNRRules; fold profiles.
    replace STATIC_RULES_START_ID
      with (STATIC_RULES_START_ID + Z.of_nat 0)%Z at 1 by lia.
    rewrite (mapCounting_from STATIC_RULES_START_ID). reflexivity. }
  clearbody rules profiles.
  assert (Hlen : length rules = (length profiles + 2)%nat).
  { rewrite Hrules, length_app, length_map, length_combine, length_seq.
    simpl. lia. }
  assert (Hids :
    map DNR.id rules
    = map (fun i => (STATIC_RULES_START_ID + Z.of_nat i)%Z)
          (seq 0 (length rules))).
  { rewrite Hlen, seq_app, map_app, Hrules, map_app, map_map. simpl.
    f_equal; [ | repeat (f_equal; try lia)].
    generalize 0%nat. clear. induction profiles as [| p ps IH]; intros k; simpl;
      [reflexivity | now rewrite IH]. }
  split; [exact Hids | ].
  split; [intros i j Hij; rewrite Hids; now apply consecutive_increasing | ].
  split; [rewrite Hids; apply consecutive_NoDup | ].
  split; [exact Hlen | ].
  split.
  - rewrite Hrules.
    rewrite firstn_app, length_map, length_combine, length_seq, Nat.min_id,
      Nat.sub_diag, firstn_all2, app_nil_r;
      [reflexivity | rewrite length_map, length_combine, length_seq; lia].
  - rewrite Hrules, map_app, map_map. f_equal.
    generalize 0%nat. clear. induction profiles as [| p ps IH]; intros k; simpl;
      [reflexivity | now rewrite IH].
Qed.

(* ================================================================== *)
(** * Properties of the build orchestrator *)

Section BuildOrchestrator.

Import Orchestrator.

Lemma every_step_is_a_task (s : Step) : In s tasks.
Proof. destruct s; simpl; tauto. Qed.

(** [result.every(r => r.status === "fulfilled")] over the seven outcomes. *)
Lemma every_fulfilled (w : World) :
  forallb isFulfilled (map (step w) tasks) = true
  <-> forall s, step w s = fulfilled.
Proof.
  rewrite forallb_forall. split.
  - intros H s. specialize (H (step w s) (in_map _ _ _ (every_step_is_a_task s))).
    destruct (step w s); [reflexivity | discriminate].
  - intros H r Hr. apply in_map_iff in Hr as (s & <- & _). now rewrite H.
Qed.

Lemma run_prepared (targetBase : TargetBase) (w : World) :
  prepared w = true ->
  run targetBase w
  = let trace :=
      [EmptyDir; Mkdir; GetManifest] ++ map Launched tasks
      ++ map (fun s => Collected s (step w s)) tasks in
    if forallb isFulfilled (map (step w) tasks) then
      if TargetBase_eqb targetBase apple
      then await ConvertToSafariExtension (convertToSafariExtension w) trace
      else (trace, Returned tt)
    else (trace, Threw (Message "Build failed with errors")).
Proof.
  unfold prepared, run, build, andThen, await, launch, allSettled, ret, throw.
  destruct (emptyDir w), (mkdir w), (getManifest w); try discriminate.
  intros _. cbv zeta.
  destruct (forallb isFulfilled (map (step w) tasks));
    destruct (TargetBase_eqb targetBase apple);
    destruct (convertToSafariExtension w); reflexivity.
Qed.

End BuildOrchestrator.

(** C6: once the output directory is prepared and the manifest read, all
    seven steps are launched and the outcome of each one is collected,
    whatever the others did; the build returns only if every step is
    fulfilled, a single rejected step makes it throw, and the Safari
    conversion runs exactly when the target base is apple and every step is
    fulfilled. *)
Theorem C6_build_collects_all_outcomes (targetBase : TargetBase)
    (w : Orchestrator.World) :
  Orchestrator.prepared w = true ->
  let trace := fst (Orchestrator.run targetBase w) in
  let result := snd (Orchestrator.run targetBase w) in
  length Orchestrator.tasks = 7%nat
  /\ (forall s,
        In (Orchestrator.Launched s) trace
        /\ In (Orchestrator.Collected s (Orchestrator.step w s)) trace)
  /\ (result = Orchestrator.Returned tt ->
      forall s, Orchestrator.step w s = fulfilled)
  /\ ((exists s, Orchestrator.step w s = rejected) ->
      result
      = Orchestrator.Threw (Orchestrator.Message "Build failed with errors")
      /\ ~ In Orchestrator.ConvertToSafariExtension trace)
  /\ (In Orchestrator.ConvertToSafariExtension trace
      <-> targetBase = apple /\ forall s, Orchestrator.step w s = fulfilled).
Proof.
  intros Hprep trace result. subst trace result.
  rewrite (run_prepared targetBase w Hprep). cbv zeta.
  pose proof (every_fulfilled w) as Hall.
  assert (Hno : forall l1 l2 : list Orchestrator.Step,
             ~ In Orchestrator.ConvertToSafariExtension
                 ([Orchestrator.EmptyDir; Orchestrator.Mkdir; Orchestrator.GetManifest]
                  ++ map Orchestrator.Launched l1
                  ++ map (fun s => Orchestrator.Collected s (Orchestrator.step w s)) l2)).
  { intros l1 l2 Hin. simpl in Hin.
    destruct Hin as [Hin | [Hin | [Hin | Hin]]]; try discriminate.
    apply in_app_or in Hin as [Hin | Hin];
      apply in_map_iff in Hin as (s & Hs & _); discriminate. }
  assert (Hin : forall s tr,
             (forall e, In e ([Orchestrator.EmptyDir; Orchestrator.Mkdir;
                               Orchestrator.GetManifest]
                              ++ map Orchestrator.Launched Orchestrator.tasks
                              ++ map (fun s => Orchestrator.Collected s
                                                 (Orchestrator.step w s))
                                   Orchestrator.tasks) -> In e tr) ->
             In (Orchestrator.Launched s) tr
             /\ In (Orchestrator.Collected s (Orchestrator.step w s)) tr).
  { intros s tr Htr. split; apply Htr; apply in_or_app; right; apply in_or_app.
    - left. apply in_map, every_step_is_a_task.
    - right. apply (in_map (fun s => Orchestrator.Collected s (Orchestrator.step w s))),
        every_step_is_a_task. }
  split; [reflexivity | ].
  destruct (forallb isFulfilled (map (Orchestrator.step w) Orchestrator.tasks)) eqn:E.
  - assert (Hok : forall s, Orchestrator.step w s = fulfilled) by now apply Hall.
    assert (Hnone : ~ exists s, Orchestrator.step w s = rejected).
    { intros [s Hs]. rewrite Hok in Hs. discriminate. }
    destruct (TargetBase_eqb targetBase apple) eqn:Et.
    + assert (targetBase = apple) by (destruct targetBase; try discriminate; reflexivity).
      unfold Orchestrator.await.
      destruct (Orchestrator.convertToSafariExtension w); cbn [fst snd].
      * split; [intros s; apply Hin; intros e He; apply in_or_app; now left | ].
        split; [intros _; exact Hok | ].
        split; [intros Hs; contradiction | ].
        split; [intros _; split; [assumption | exact Hok] | ].
        intros _. apply in_or_app; right; simpl; now left.
      * split; [intros s; apply Hin; intros e He; apply in_or_app; now left | ].
        split; [intros _; exact Hok | ].
        split; [intros Hs; contradiction | ].
        split; [intros _; split; [assumption | exact Hok] | ].
        intros _. apply in_or_app; right; simpl; now left.
    + assert (targetBase <> apple) by (intros ->; discriminate).
      cbn [fst snd].
      split; [intros s; apply Hin; auto | ].
      split; [intros _; exact Hok | ].
      split; [intros Hs; contradiction | ].
      split; [intros Hc; now apply Hno in Hc | ].
      intros [Ha _]; contradiction.
  - assert (Hbad : ~ forall s, Orchestrator.step w s = fulfilled).
    { intros Hok. apply Hall in Hok. congruence. }
    cbn [fst snd].
    split; [intros s; apply Hin; auto | ].
    split; [discriminate | ].
    split; [intros _; split; [reflexivity | apply Hno] | ].
    split; [intros Hc; now apply Hno in Hc | ].
    intros [_ Hok]; contradiction.
Qed.

Lemma C6_build_collects_all_outcomes_witness :
  let trace := fst (Orchestrator.run apple allFulfilled) in
  let result := snd (Orchestrator.run apple allFulfilled) in
  length Orchestrator.tasks = 7%nat
  /\ (forall s,
        In (Orchestrator.Launched s) trace
        /\ In (Orchestrator.Collected s (Orchestrator.step allFulfilled s)) trace)
  /\ (result = Orchestrator.Returned tt ->
      forall s, Orchestrator.step allFulfilled s = fulfilled)
  /\ ((exists s, Orchestrator.step allFulfilled s = rejected) ->
      result
      = Orchestrator.Threw (Orchestrator.Message "Build failed with errors")
      /\ ~ In Orchestrator.ConvertToSafariExtension trace)
  /\ (In Orchestrator.ConvertToSafariExtension trace
      <-> apple = apple /\ forall s, Orchestrator.step allFulfilled s = fulfilled).
Proof.
  apply (C6_build_collects_all_outcomes apple allFulfilled). reflexivity.
Defined.

(* ================================================================== *)
(** * Properties of the dev server *)

Section DevServerProperties.

Import DevServer.

Lemma skipn_own_length {A} (l new : list A) : skipn (length l) (l ++ new) = new.
Proof.
  induction l as [| a l IH]; simpl; [reflexivity | exact IH].
Qed.

(** Rebuilding never opens or closes a connection. *)
Lemma handleChange_connections (value : Settled) (type : option string)
    (s : Server) :
  connections (fst (handleChange value type s)) = connections s.
Proof.
  unfold handleChange, updateLog.
  destruct value; simpl; [ | reflexivity].
  destruct type as [[| c t] | ]; reflexivity.
Qed.

End DevServerProperties.

(** C7 as stated fails: after a rebuild that failed, no notification is sent
    to the two open connections. *)
Lemma C7_counterexample :
  DevServer.connections twoClients = [1%nat; 2%nat]
  /\ DevServer.sentBy rejected (Some "Reload") twoClients = [].
Proof.
  split; reflexivity.
Qed.

(** C7, amended: after a rebuild that succeeded, the notification of the
    change's type (CSS or Reload) is sent once to every connection of the
    open-connection set, in the order the connections were opened; after a
    rebuild that failed nothing is sent, and a change without a type (an
    image asset) sends nothing either. *)
Theorem C7_broadcast_after_success (type : string) (value : Settled)
    (s : DevServer.Server) :
  type = "CSS" \/ type = "Reload" ->
  DevServer.sentBy fulfilled (Some type) s
  = map (fun c => (c, {| DevServer.type := type |})) (DevServer.connections s)
  /\ (forall c,
        In c (DevServer.connections s) ->
        In (c, {| DevServer.type := type |})
           (DevServer.sentBy fulfilled (Some type) s))
  /\ DevServer.sentBy rejected (Some type) s = []
  /\ DevServer.sentBy value None s = [].
Proof.
  intros Htype.
  assert (Hsent :
    DevServer.sentBy fulfilled (Some type) s
    = map (fun c => (c, {| DevServer.type := type |})) (DevServer.connections s)).
  { unfold DevServer.sentBy, DevServer.handleChange, DevServer.updateLog.
    destruct Htype as [-> | ->]; simpl; apply skipn_own_length. }
  split; [exact Hsent | ].
  split.
  - intros c Hc. rewrite Hsent.
    apply (in_map (fun c => (c, {| DevServer.type := type |}))), Hc.
  - unfold DevServer.sentBy, DevServer.handleChange, DevServer.updateLog.
    split; [simpl; apply skipn_all | ].
    destruct value; simpl; apply skipn_all.
Qed.

Lemma C7_broadcast_after_success_witness :
  DevServer.sentBy fulfilled (Some "CSS") twoClients
  = map (fun c => (c, {| DevServer.type := "CSS" |}))
        (DevServer.connections twoClients)
  /\ (forall c,
        In c (DevServer.connections twoClients) ->
        In (c, {| DevServer.type := "CSS" |})
           (DevServer.sentBy fulfilled (Some "CSS") twoClients))
  /\ DevServer.sentBy rejected (Some "CSS") twoClients = []
  /\ DevServer.sentBy rejected None twoClients = [].
Proof.
  apply (C7_broadcast_after_success "CSS" rejected twoClients). left; reflexivity.
Defined.

(* ================================================================== *)
(** * Further properties *)

(** ** Occurrences and replacement in strings *)

Section StringOccurrences.

Local Open Scope string_scope.

Lemma string_app_assoc (a b c : string) : (a ++ b) ++ c = a ++ b ++ c.
Proof.
  induction a as [| x a IH]; simpl; [reflexivity | now rewrite IH].
Qed.

Lemma string_app_inv_head (p a b : string) : p ++ a = p ++ b -> a = b.
Proof.
  induction p as [| x p IH]; simpl; intros H; [exact H | ].
  inversion H. auto.
Qed.

Lemma string_app_inj_length (a b x y : string) :
  a ++ x = b ++ y -> String.length a = String.length b -> a = b /\ x = y.
Proof.
  revert b. induction a as [| c a IH]; intros [| d b] H Hl; simpl in *;
    try discriminate; [auto | ].
  inversion H; subst. destruct (IH b) as [-> ->]; auto.
Qed.

Lemma prefix_split (p s : string) :
  String.prefix p s = true -> s = p ++ JsString.drop (String.length p) s.
Proof.
  revert s. induction p as [| c p IH]; intros [| d s] H; simpl in *;
    try reflexivity; try discriminate.
  destruct (ascii_dec c d) as [-> | ]; [ | discriminate].
  f_equal. now apply IH.
Qed.

Lemma prefix_app (p a : string) : String.prefix p (p ++ a) = true.
Proof.
  induction p as [| c p IH]; simpl; [destruct a; reflexivity | ].
  destruct (ascii_dec c c); [exact IH | congruence].
Qed.

Lemma search_unfold (pat s : string) :
  JsString.search pat s
  = if String.prefix pat s
    then Some (EmptyString, JsString.drop (String.length pat) s)
    else match s with
         | EmptyString => None
         | String c s' =>
             match JsString.search pat s' with
             | Some (before, after) => Some (String c before, after)
             | None => None
             end
         end.
Proof.
  destruct s; reflexivity.
Qed.

(** [search] returns a genuine occurrence. *)
Lemma search_occurs (pat s before after : string) :
  JsString.search pat s = Some (before, after) -> occursAt pat s before after.
Proof.
  unfold occursAt. revert before after.
  induction s as [| c s IH]; intros before after; rewrite search_unfold.
  - destruct (String.prefix pat "") eqn:E; [ | discriminate].
    intros H; inversion H; subst. apply prefix_split in E. exact E.
  - destruct (String.prefix pat (String c s)) eqn:E.
    + intros H; inversion H; subst. apply prefix_split in E. exact E.
    + destruct (JsString.search pat s) as [[b a] | ]; [ | discriminate].
      intros H; inversion H; subst. simpl. f_equal. now apply IH.
Qed.

(** It is the leftmost one. *)
Lemma search_leftmost (pat s before after : string) :
  JsString.search pat s = Some (before, after) ->
  forall before' after',
    occursAt pat s before' after' ->
    String.length before <= String.length before'.
Proof.
  unfold occursAt. revert before after.
  induction s as [| c s IH]; intros before after; rewrite search_unfold.
  - destruct (String.prefix pat ""); [ | discriminate].
    intros H; inversion H; subst. intros; simpl; lia.
  - destruct (String.prefix pat (String c s)) eqn:E.
    + intros H; inversion H; subst. intros; simpl; lia.
    + destruct (JsString.search pat s) as [[b a] | ] eqn:Es; [ | discriminate].
      intros H; inversion H; subst. intros [| d b'] after' Hs; simpl in Hs.
      * rewrite Hs, prefix_app in E. discriminate.
      * inversion Hs; subst. simpl. apply le_n_S.
        now apply (IH b after eq_refl b' after').
Qed.

(** And it finds an occurrence whenever there is one. *)
Lemma search_finds (pat s before after : string) :
  occursAt pat s before after ->
  exists b a, JsString.search pat s = Some (b, a).
Proof.
  unfold occursAt. revert s.
  induction before as [| c before IH]; intros s ->; rewrite search_unfold.
  - simpl. rewrite prefix_app. eauto.
  - change (String c before ++ pat ++ after)
      with (String c (before ++ pat ++ after)).
    destruct (String.prefix pat (String c (before ++ pat ++ after))); [eauto | ].
    destruct (IH (before ++ pat ++ after) eq_refl) as (b & a & ->).
    do 2 eexists; reflexivity.
Qed.

Lemma search_first (pat s before after : string) :
  firstOccurrence pat s before after ->
  JsString.search pat s = Some (before, after).
Proof.
  intros [Hocc Hmin].
  destruct (search_finds _ _ _ _ Hocc) as (b & a & Hs).
  pose proof (search_occurs _ _ _ _ Hs) as Hocc'.
  pose proof (search_leftmost _ _ _ _ Hs _ _ Hocc) as Hle.
  pose proof (Hmin _ _ Hocc') as Hge.
  unfold occursAt in *. rewrite Hocc in Hocc'.
  destruct (string_app_inj_length _ _ _ _ Hocc') as [-> Hrest]; [lia | ].
  apply string_app_inv_head in Hrest. now subst.
Qed.

Lemma search_absent (pat s : string) :
  (forall before after, ~ occursAt pat s before after) ->
  JsString.search pat s = None.
Proof.
  intros H. destruct (JsString.search pat s) as [[b a] | ] eqn:E; [ | reflexivity].
  apply search_occurs in E. now apply H in E.
Qed.

Lemma getSubstitution_plain (matched before after repl : string) :
  plainText repl = true ->
  JsString.getSubstitution matched before after repl = repl.
Proof.
  induction repl as [| c repl IH]; simpl; [reflexivity | ].
  destruct (Ascii.eqb c "$"); simpl; [discriminate | ].
  intros H. now rewrite IH.
Qed.

(** [replace] rewrites the first occurrence and nothing else. *)
Lemma replace_first (s pat repl before after : string) :
  firstOccurrence pat s before after ->
  plainText repl = true ->
  JsString.replace s pat repl = before ++ repl ++ after.
Proof.
  intros H Hp. unfold JsString.replace.
  now rewrite (search_first _ _ _ _ H), getSubstitution_plain.
Qed.

(** Without an occurrence the string comes back as it is. *)
Lemma replace_absent (s pat repl : string) :
  (forall before after, ~ occursAt pat s before after) ->
  JsString.replace s pat repl = s.
Proof.
  intros H. unfold JsString.replace. now rewrite search_absent.
Qed.

End StringOccurrences.

(** ** Manifest transformer: what each family receives *)

Section PackagedResources.

Lemma stripGroups_unfold (groups : list WebAccessibleResource) :
  stripGroups groups
  = match filter nonEmpty (map clean groups) with
    | [] => None
    | kept => Some kept
    end.
Proof.
  unfold stripGroups. fold notMap. fold clean. fold nonEmpty.
  destruct (filter nonEmpty (map clean groups)); reflexivity.
Qed.

Lemma kept_groups (groups : list WebAccessibleResource) (g : WebAccessibleResource) :
  In g (filter nonEmpty (map clean groups)) ->
  resources g <> []
  /\ (forall r, In r (resources g) -> JsString.endsWith r ".map" = false)
  /\ exists g0, In g0 groups /\ g = clean g0.
Proof.
  intros H. apply filter_In in H as [Hin Hne].
  apply in_map_iff in Hin as (g0 & <- & Hg0).
  split; [ | split; [ | eauto]].
  - unfold nonEmpty in Hne. destruct (resources (clean g0)); [discriminate | congruence].
  - intros r Hr. unfold clean in Hr; simpl in Hr.
    apply filter_In in Hr as [_ Hr]. unfold notMap in Hr.
    now destruct (JsString.endsWith r ".map").
Qed.

Lemma surviving_resource (groups : list WebAccessibleResource)
    (g0 : WebAccessibleResource) (r : string) :
  In g0 groups -> In r (resources g0) -> JsString.endsWith r ".map" = false ->
  In (clean g0) (filter nonEmpty (map clean groups))
  /\ In r (resources (clean g0)).
Proof.
  intros Hg Hr He.
  assert (Hin : In r (resources (clean g0))).
  { unfold clean; simpl. apply filter_In. split; [exact Hr | ].
    unfold notMap. now rewrite He. }
  split; [ | exact Hin].
  apply filter_In. split; [now apply in_map | ].
  unfold nonEmpty. destruct (resources (clean g0)); [destruct Hin | reflexivity].
Qed.

Lemma flat_kept_groups (groups : list WebAccessibleResource) :
  flat_map resources (filter nonEmpty (map clean groups))
  = filter notMap (flat_map resources groups).
Proof.
  induction groups as [| g groups IH]; simpl; [reflexivity | ].
  rewrite filter_app, <- IH.
  unfold nonEmpty at 1. unfold clean at 1 2. simpl.
  destruct (filter notMap (resources g)); reflexivity.
Qed.

(** X1: in a non-development build for the Chromium or the Apple family,
    every resource group of the output is a group of the source without its
    [.map] files, none of them empty; every other resource of the source is
    still there, under the match patterns of its group; the key is absent
    exactly when the source lists nothing but [.map] files. A development
    build leaves the groups alone. *)
Theorem X1_packaged_resource_groups (m : Manifest) (targetBase : TargetBase)
    (devServers : option DevServersAvailable)
    (groups : list WebAccessibleResource) :
  web_accessible_resources m = Some (WarGroups groups) ->
  targetBase <> firefox ->
  (exists out,
     transformManifest m targetBase false devServers = Ok out
     /\ packagedGroups groups (web_accessible_resources out))
  /\ (exists out,
        transformManifest m targetBase true devServers = Ok out
        /\ web_accessible_resources out = Some (WarGroups groups)).
Proof.
  intros Hw Ht.
  destruct m as [? ? ? ? ? ? ? b ? ? ? ? war ? ? ? ? ? bss ? ? ?].
  simpl in Hw; subst war.
  split.
  - assert (Hout : exists out,
               transformManifest
                 (Build_Manifest schema0 manifest_version0 name0 short_name0 version0
                    store_version0 version_name0 b permissions0 host_permissions0
                    optional_permissions0 optional_host_permissions0
                    (Some (WarGroups groups)) options_ui0 action0 browser_action0
                    incognito0 background0 bss key0 minimum_chrome_version0 other0)
                 targetBase false devServers = Ok out
               /\ web_accessible_resources out
                  = option_map WarGroups (stripGroups groups)).
    { destruct targetBase; try congruence;
        destruct b as [[|] | ], bss as [bss | ], devServers;
        unfold transformManifest, stripSourceMaps, addLocalhost, markBeta,
          familyShape, familySettings, appleStrip, isBeta; simpl;
        eexists; split; reflexivity. }
    destruct Hout as (out & E & Hwar). exists out. split; [exact E | ].
    unfold packagedGroups. rewrite Hwar, stripGroups_unfold.
    pose proof (kept_groups groups) as Hkept.
    pose proof (surviving_resource groups) as Hsurv.
    revert Hkept Hsurv.
    destruct (filter nonEmpty (map clean groups)) as [| k kept];
      intros Hkept Hsurv; simpl.
    + intros g0 r Hg Hr.
      destruct (JsString.endsWith r ".map") eqn:He; [reflexivity | ].
      destruct (Hsurv g0 r Hg Hr He) as [[] _].
    + split; [discriminate | split].
      * intros g Hg. apply Hkept. exact Hg.
      * intros g0 r Hg Hr He.
        destruct (Hsurv g0 r Hg Hr He) as [Hin Hres].
        exists (clean g0). auto.
  - destruct targetBase; try congruence;
      destruct b as [[|] | ], bss as [bss | ], devServers;
      unfold transformManifest, stripSourceMaps, addLocalhost, markBeta,
        familyShape, familySettings, appleStrip, isBeta; simpl;
      eexists; split; reflexivity.
Qed.

(** The flat list the Gecko family receives. *)
Lemma gecko_resources_flattened (m : Manifest)
    (devServers : option DevServersAvailable)
    (groups : list WebAccessibleResource) :
  web_accessible_resources m = Some (WarGroups groups) ->
  (exists out,
     transformManifest m firefox true devServers = Ok out
     /\ web_accessible_resources out
        = Some (WarFlat (map Some (flat_map resources groups))))
  /\ (exists out,
        transformManifest m firefox false devServers = Ok out
        /\ web_accessible_resources out
           = match filter (fun item => negb (JsString.endsWith item ".map"))
                          (flat_map resources groups) with
             | [] => None
             | kept => Some (WarFlat (map Some kept))
             end).
Proof.
  intros Hw.
  destruct m as [? ? ? ? ? ? ? b ? ? ? ? war ? ? ? ? ? bss ? ? ?].
  simpl in Hw; subst war.
  split.
  - destruct b as [[|] | ], bss as [bss | ], devServers;
      unfold transformManifest, stripSourceMaps, addLocalhost, markBeta,
        familyShape, familySettings, appleStrip, flattenResources, isBeta; simpl;
      eexists; split; reflexivity.
  - fold notMap. rewrite <- flat_kept_groups.
    assert (Hout : exists out,
               transformManifest
                 (Build_Manifest schema0 manifest_version0 name0 short_name0 version0
                    store_version0 version_name0 b permissions0 host_permissions0
                    optional_permissions0 optional_host_permissions0
                    (Some (WarGroups groups)) options_ui0 action0 browser_action0
                    incognito0 background0 bss key0 minimum_chrome_version0 other0)
                 firefox false devServers = Ok out
               /\ web_accessible_resources out
                  = match stripGroups groups with
                    | Some kept => Some (WarFlat (map Some (flat_map resources kept)))
                    | None => None
                    end).
    { destruct b as [[|] | ], bss as [bss | ], devServers;
        unfold transformManifest, stripSourceMaps, addLocalhost, markBeta,
          familyShape, familySettings, appleStrip, flattenResources, isBeta; simpl;
        destruct (stripGroups groups); simpl; eexists; split; reflexivity. }
    destruct Hout as (out & E & Hwar). exists out. split; [exact E | ].
    rewrite Hwar, stripGroups_unfold.
    pose proof (kept_groups groups) as Hkept. revert Hkept.
    destruct (filter nonEmpty (map clean groups)) as [| k kept];
      intros Hkept; [reflexivity | ].
    destruct (Hkept k (or_introl eq_refl)) as [Hne _].
    simpl. destruct (resources k) eqn:Er; [congruence | reflexivity].
Qed.

End PackagedResources.

(** X2: for the Gecko family the grouped resources become one flat list:
    every resource of every group, in order, in a development build; the
    ones that are no [.map] file in a non-development build, and no key at
    all when none is left. *)
Theorem X2_gecko_flat_resources (m : Manifest)
    (devServers : option DevServersAvailable)
    (groups : list WebAccessibleResource) :
  web_accessible_resources m = Some (WarGroups groups) ->
  (exists out,
     transformManifest m firefox true devServers = Ok out
     /\ web_accessible_resources out
        = Some (WarFlat (map Some (flat_map resources groups))))
  /\ (exists out,
        transformManifest m firefox false devServers = Ok out
        /\ web_accessible_resources out
           = match filter (fun item => negb (JsString.endsWith item ".map"))
                          (flat_map resources groups) with
             | [] => None
             | kept => Some (WarFlat (map Some kept))
             end).
Proof.
  exact (gecko_resources_flattened m devServers groups).
Qed.

Lemma X1_packaged_resource_groups_witness :
  (exists out,
     transformManifest sampleManifest chromium false None = Ok out
     /\ packagedGroups sampleGroups (web_accessible_resources out))
  /\ (exists out,
        transformManifest sampleManifest chromium true None = Ok out
        /\ web_accessible_resources out = Some (WarGroups sampleGroups)).
Proof.
  apply (X1_packaged_resource_groups sampleManifest chromium None sampleGroups);
    [reflexivity | discriminate].
Defined.

Lemma X2_gecko_flat_resources_witness :
  (exists out,
     transformManifest sampleManifest firefox true None = Ok out
     /\ web_accessible_resources out
        = Some (WarFlat (map Some (flat_map resources sampleGroups))))
  /\ (exists out,
        transformManifest sampleManifest firefox false None = Ok out
        /\ web_accessible_resources out
           = match filter (fun item => negb (JsString.endsWith item ".map"))
                          (flat_map resources sampleGroups) with
             | [] => None
             | kept => Some (WarFlat (map Some kept))
             end).
Proof.
  apply (X2_gecko_flat_resources sampleManifest None sampleGroups). reflexivity.
Defined.

(** X3: whatever the family and the mode, the output carries no $schema, no
    store_version and no beta flag; its version is the store_version of the
    source; the keys the transformer does not know stay as they are; name
    and short_name become "RoSeal BETA" in a non-development build of a beta
    manifest and are kept otherwise. *)
Theorem X3_housekeeping (m : Manifest) (targetBase : TargetBase) (isDev : bool)
    (devServers : option DevServersAvailable) :
  isSourceManifest m = true ->
  exists out,
    transformManifest m targetBase isDev devServers = Ok out
    /\ schema out = None
    /\ store_version out = None
    /\ beta out = None
    /\ version out = store_version m
    /\ other out = other m
    /\ name out
       = (if isBeta m && negb isDev then Some "RoSeal BETA" else name m)
    /\ short_name out
       = (if isBeta m && negb isDev then Some "RoSeal BETA" else short_name m).
Proof.
  intros H. unfold isBeta.
  open_manifest m; destruct targetBase, isDev, devServers; run_transform;
    eexists; repeat split; reflexivity.
Qed.

Lemma X3_housekeeping_witness :
  exists out,
    transformManifest sampleBetaManifest apple false None = Ok out
    /\ schema out = None
    /\ store_version out = None
    /\ beta out = None
    /\ version out = store_version sampleBetaManifest
    /\ other out = other sampleBetaManifest
    /\ name out = Some "RoSeal BETA"
    /\ short_name out = Some "RoSeal BETA".
Proof.
  exact (X3_housekeeping sampleBetaManifest apple false None eq_refl).
Defined.

(** X4: for the Apple family the output has no incognito key, its
    optional_permissions are those of the source without "cookies", in the
    same order, and its settings block holds the safari entry only. *)
Theorem X4_apple_family (m : Manifest) (isDev : bool)
    (devServers : option DevServersAvailable) :
  isSourceManifest m = true ->
  exists out,
    transformManifest m apple isDev devServers = Ok out
    /\ incognito out = None
    /\ optional_permissions out
       = option_map (filter (fun item => negb (String.eqb item "cookies")))
                    (optional_permissions m)
    /\ ~ In "cookies" (orEmpty (optional_permissions out))
    /\ browser_specific_settings out
       = option_map
           (fun bss => {| bss_chrome := None; bss_firefox := None;
                          bss_safari := bss_safari bss;
                          bss_gecko := None; bss_gecko_android := None |})
           (browser_specific_settings m).
Proof.
  intros H.
  assert (Hout : exists out,
             transformManifest m apple isDev devServers = Ok out
             /\ incognito out = None
             /\ optional_permissions out
                = option_map (filter (fun item => negb (String.eqb item "cookies")))
                             (optional_permissions m)
             /\ browser_specific_settings out
                = option_map
                    (fun bss => {| bss_chrome := None; bss_firefox := None;
                                   bss_safari := bss_safari bss;
                                   bss_gecko := None; bss_gecko_android := None |})
                    (browser_specific_settings m)).
  { open_manifest m; destruct isDev, devServers; run_transform;
      eexists; repeat split; reflexivity. }
  destruct Hout as (out & E & Hi & Ho & Hb).
  exists out. repeat split; auto.
  rewrite Ho. destruct (optional_permissions m) as [l | ]; simpl; [ | tauto].
  intros Hin. apply filter_In in Hin as [_ Hin]. discriminate.
Qed.

Lemma X4_apple_family_witness :
  exists out,
    transformManifest sampleManifest apple true None = Ok out
    /\ incognito out = None
    /\ optional_permissions out = Some ["notifications"]
    /\ ~ In "cookies" (orEmpty (optional_permissions out))
    /\ browser_specific_settings out
       = option_map
           (fun bss => {| bss_chrome := None; bss_firefox := None;
                          bss_safari := bss_safari bss;
                          bss_gecko := None; bss_gecko_android := None |})
           (browser_specific_settings sampleManifest).
Proof.
  exact (X4_apple_family sampleManifest true None eq_refl).
Defined.

(** X5: the Gecko identity block outside beta releases. A development build
    has neither id nor update_url; a non-development build of a manifest
    that is not beta has the id of the firefox settings and no update_url.
    In both, the block never shows beta_id, beta_update_url or android; the
    android settings move to gecko_android and the other settings are
    copied. *)
Theorem X5_gecko_identity (m : Manifest) (isDev : bool)
    (devServers : option DevServersAvailable) (bss : SettingsBlock)
    (fx : FirefoxSettings) :
  isSourceManifest m = true ->
  browser_specific_settings m = Some bss ->
  bss_firefox bss = Some fx ->
  isDev = true \/ isBeta m = false ->
  exists out,
    transformManifest m firefox isDev devServers = Ok out
    /\ browser_specific_settings out
       = Some {| bss_chrome := None; bss_firefox := None; bss_safari := None;
                 bss_gecko :=
                   Some {| fx_id := if isDev then None else fx_id fx;
                           fx_beta_id := None;
                           fx_key := fx_key fx;
                           fx_beta_update_url := None;
                           fx_strict_min_version := fx_strict_min_version fx;
                           fx_strict_max_version := fx_strict_max_version fx;
                           fx_update_url := None;
                           fx_android := None |};
                 bss_gecko_android := fx_android fx |}.
Proof.
  intros H Hb Hfx Hmode. unfold isBeta in Hmode.
  open_manifest m; inversion Hb; subst;
    destruct isDev, devServers;
    try (destruct Hmode; discriminate);
    run_transform; rewrite Hfx; simpl;
    eexists; split; reflexivity.
Qed.

Lemma X5_gecko_identity_witness :
  exists out,
    transformManifest sampleManifest firefox false None = Ok out
    /\ browser_specific_settings out
       = Some {| bss_chrome := None; bss_firefox := None; bss_safari := None;
                 bss_gecko :=
                   Some {| fx_id := Some "extension@roseal.live";
                           fx_beta_id := None;
                           fx_key := None;
                           fx_beta_update_url := None;
                           fx_strict_min_version := Some "115.0";
                           fx_strict_max_version := None;
                           fx_update_url := None;
                           fx_android := None |};
                 bss_gecko_android := Some noSettings |}.
Proof.
  exact (X5_gecko_identity sampleManifest false None _ sampleFirefoxSettings
           eq_refl eq_refl eq_refl (or_intror eq_refl)).
Defined.

(** X6: a source without a settings block gives an output without one, for
    every family and mode, and its key and minimum_chrome_version are those
    of the source. *)
Theorem X6_no_settings_block (m : Manifest) (targetBase : TargetBase)
    (isDev : bool) (devServers : option DevServersAvailable) :
  isSourceManifest m = true ->
  browser_specific_settings m = None ->
  exists out,
    transformManifest m targetBase isDev devServers = Ok out
    /\ browser_specific_settings out = None
    /\ key out = key m
    /\ minimum_chrome_version out = minimum_chrome_version m.
Proof.
  intros H Hb.
  open_manifest m; try discriminate;
    destruct targetBase, isDev, devServers; run_transform;
    eexists; repeat split; reflexivity.
Qed.

Lemma X6_no_settings_block_witness :
  exists out,
    transformManifest (set_browser_specific_settings sampleManifest None)
      firefox false None = Ok out
    /\ browser_specific_settings out = None
    /\ key out = None
    /\ minimum_chrome_version out = None.
Proof.
  exact (X6_no_settings_block (set_browser_specific_settings sampleManifest None)
           firefox false None eq_refl eq_refl).
Defined.

(** X7: the shape each family is given. Gecko: action becomes
    browser_action, the background worker becomes a one-element scripts
    array, incognito is "spanning", version_name is dropped and options_ui
    kept. Chromium and Apple: options_ui is dropped while manifest_version,
    action, background, permissions and the optional permission lists of the
    source are kept (Apple loses "cookies" only). *)
Theorem X7_family_shape (m : Manifest) (isDev : bool)
    (devServers : option DevServersAvailable) :
  isSourceManifest m = true ->
  (exists out,
     transformManifest m firefox isDev devServers = Ok out
     /\ action out = None
     /\ browser_action out = action m
     /\ incognito out = Some "spanning"
     /\ version_name out = None
     /\ options_ui out = options_ui m
     /\ background out
        = option_map
            (fun b => {| service_worker := None; bg_type := None;
                         scripts := Some [service_worker b] |})
            (background m))
  /\ (forall targetBase,
        targetBase <> firefox ->
        exists out,
          transformManifest m targetBase isDev devServers = Ok out
          /\ options_ui out = None
          /\ manifest_version out = manifest_version m
          /\ action out = action m
          /\ browser_action out = browser_action m
          /\ background out = background m
          /\ permissions out = permissions m
          /\ optional_host_permissions out = optional_host_permissions m
          /\ (targetBase = chromium ->
              optional_permissions out = optional_permissions m
              /\ incognito out = incognito m)).
Proof.
  intros H. split.
  - open_manifest m; destruct isDev, devServers; run_transform;
      eexists; repeat split; reflexivity.
  - intros targetBase Ht.
    open_manifest m; destruct targetBase; try congruence;
      destruct isDev, devServers; run_transform;
      eexists; repeat split; try reflexivity; discriminate.
Qed.

Lemma X7_family_shape_witness :
  (exists out,
     transformManifest sampleManifest firefox false None = Ok out
     /\ action out = None
     /\ browser_action out = action sampleManifest
     /\ incognito out = Some "spanning"
     /\ version_name out = None
     /\ options_ui out = options_ui sampleManifest
     /\ background out
        = Some {| service_worker := None; bg_type := None;
                  scripts := Some [Some "js/background.js"] |})
  /\ (forall targetBase,
        targetBase <> firefox ->
        exists out,
          transformManifest sampleManifest targetBase false None = Ok out
          /\ options_ui out = None
          /\ manifest_version out = manifest_version sampleManifest
          /\ action out = action sampleManifest
          /\ browser_action out = browser_action sampleManifest
          /\ background out = background sampleManifest
          /\ permissions out = permissions sampleManifest
          /\ optional_host_permissions out
             = optional_host_permissions sampleManifest
          /\ (targetBase = chromium ->
              optional_permissions out = optional_permissions sampleManifest
              /\ incognito out = incognito sampleManifest)).
Proof.
  exact (X7_family_shape sampleManifest false None eq_refl).
Defined.

(** X8: version_name for the Chromium and the Apple family, when the version
    of the source holds no [$]. Without the placeholder
    [__manifest_version__] the version_name is the one of the source;
    otherwise the first placeholder, and only that one, is replaced by the
    version of the source (not by its store_version, which becomes the
    version of the output). *)
Theorem X8_version_name (m : Manifest) (targetBase : TargetBase) (isDev : bool)
    (devServers : option DevServersAvailable) (vn v : string) :
  isSourceManifest m = true ->
  targetBase <> firefox ->
  version_name m = Some vn ->
  version m = Some v ->
  plainText v = true ->
  exists out,
    transformManifest m targetBase isDev devServers = Ok out
    /\ version out = store_version m
    /\ ((forall before after,
           ~ occursAt "__manifest_version__" vn before after) ->
        version_name out = Some vn)
    /\ (forall before after,
          firstOccurrence "__manifest_version__" vn before after ->
          version_name out = Some (before ++ v ++ after)%string).
Proof.
  intros H Ht Hvn Hv Hplain.
  assert (Hout : exists out,
             transformManifest m targetBase isDev devServers = Ok out
             /\ version out = store_version m
             /\ version_name out
                = Some (JsString.replace vn "__manifest_version__" v)).
  { open_manifest m; subst; destruct targetBase; try congruence;
      destruct isDev, devServers; run_transform;
      eexists; repeat split; reflexivity. }
  destruct Hout as (out & E & Hver & Hname).
  exists out. split; [exact E | split; [exact Hver | split]].
  - intros Habsent. rewrite Hname. f_equal. now apply replace_absent.
  - intros before after Hfirst. rewrite Hname. f_equal.
    now apply replace_first.
Qed.

Lemma X8_version_name_witness :
  exists out,
    transformManifest sampleManifest chromium false None = Ok out
    /\ version out = store_version sampleManifest
    /\ ((forall before after,
           ~ occursAt "__manifest_version__" "__manifest_version__ (stable)"
               before after) ->
        version_name out = Some "__manifest_version__ (stable)")
    /\ (forall before after,
          firstOccurrence "__manifest_version__" "__manifest_version__ (stable)"
            before after ->
          version_name out = Some (before ++ "2.0.0" ++ after)%string).
Proof.
  apply (X8_version_name sampleManifest chromium false None
           "__manifest_version__ (stable)" "2.0.0");
    [reflexivity | discriminate | reflexivity | reflexivity | reflexivity].
Defined.

(** X9: the Gecko output of a non-development build cannot be transformed
    again. As soon as the source lists one resource that is no [.map] file,
    the output holds a flat list of strings, and a second pass raises a
    TypeError on [data.resources.filter]. *)
Theorem X9_gecko_second_pass_raises (m : Manifest)
    (devServers : option DevServersAvailable)
    (groups : list WebAccessibleResource) (g : WebAccessibleResource)
    (r : string) :
  web_accessible_resources m = Some (WarGroups groups) ->
  In g groups -> In r (resources g) -> JsString.endsWith r ".map" = false ->
  transformTwice m firefox false devServers = TypeError.
Proof.
  intros Hw Hg Hr He.
  destruct (gecko_resources_flattened m devServers groups Hw)
    as [_ (out & E & Hflat)].
  unfold transformTwice. rewrite E. simpl.
  assert (Hin : In r (filter (fun item => negb (JsString.endsWith item ".map"))
                             (flat_map resources groups))).
  { apply filter_In. split; [ | now rewrite He].
    apply in_flat_map. eauto. }
  destruct (filter (fun item => negb (JsString.endsWith item ".map"))
                   (flat_map resources groups)) as [| k kept]; [destruct Hin | ].
  unfold transformManifest, stripSourceMaps.
  destruct out; simpl in *. rewrite Hflat. reflexivity.
Qed.

Lemma X9_gecko_second_pass_raises_witness :
  transformTwice sampleManifest firefox false None = TypeError.
Proof.
  apply (X9_gecko_second_pass_raises sampleManifest None sampleGroups
           (hd {| resources := []; matches := None; extension_ids := None;
                  use_dynamic_url := None |} sampleGroups)
           "js/inject.js");
    [reflexivity | left; reflexivity | left; reflexivity | reflexivity].
Defined.

(** ** Locale extractor: what a catalog holds *)

Section Catalog.

Import I18n.

Variables (types : option (list Env)) (includeContext : bool).

Lemma in_assign (t : Transform) (k : string) (e : Entry) (k' : string) (e' : Entry) :
  In (k', e') (assign t k e) -> (k' = k /\ e' = e) \/ In (k', e') t.
Proof.
  induction t as [| [k0 e0] t IH]; simpl.
  - intros [H | []]; inversion H; auto.
  - destruct (String.eqb k0 k) eqn:E; simpl.
    + apply String.eqb_eq in E; subst k0.
      intros [H | H]; [inversion H; auto | auto].
    + intros [H | H]; [auto | ]. destruct (IH H); auto.
Qed.

Lemma lookup_in (t : Transform) (k : string) (e : Entry) :
  lookup t k = Some e -> exists k', In (k', e) t.
Proof.
  induction t as [| [k0 e0] t IH]; simpl; [discriminate | ].
  destruct (String.eqb k0 k).
  - intros H; inversion H; subst. eauto.
  - intros H. destruct (IH H) as [k' Hk]. eauto.
Qed.

Lemma keys_assign_grow (t : Transform) (k : string) (e : Entry) (k' : string) :
  k' = k \/ In k' (keys t) -> In k' (keys (assign t k e)).
Proof.
  unfold keys. induction t as [| [k0 e0] t IH]; simpl.
  - intros [-> | []]; auto.
  - destruct (String.eqb k0 k) eqn:E; simpl.
    + apply String.eqb_eq in E; subst k0. intros [-> | [-> | H]]; auto.
    + intros [-> | [-> | H]]; auto.
Qed.

Lemma nonempty_length (s : string) :
  Nat.eqb (String.length s) 0 = false -> s <> EmptyString.
Proof.
  destruct s; [discriminate | discriminate].
Qed.

Lemma truthy_nonempty (o : option string) :
  truthy o = true -> exists s, o = Some s /\ s <> EmptyString.
Proof.
  destruct o as [[| c s] | ]; try discriminate.
  intros _. eexists; split; [reflexivity | discriminate].
Qed.

(** One property leaves every entry with a message that is not empty, and
    without a context unless contexts are asked for. *)
Lemma handleProperty_wellFormed (value : Value) :
  forall namespace given currentContext key transform,
    allWellFormed includeContext transform ->
    allWellFormed includeContext (handleProperty types includeContext namespace given
                     currentContext key value transform).
Proof.
  induction value as [s | nodeTypes message context children IH]
    using Value_rect_nested;
    intros namespace given currentContext key transform Ht;
    simpl; destruct (JsString.startsWith key "$"); try exact Ht.
  - destruct (Nat.eqb (String.length s) 0) eqn:El; [exact Ht | ].
    intros k e Hk. apply in_assign in Hk as [[_ ->] | Hk]; [ | eauto].
    split; simpl; [ | reflexivity].
    exists s. split; [reflexivity | now apply nonempty_length].
  - match goal with
    | |- allWellFormed _ (if ?gate then _ else _) => destruct gate; [exact Ht | ]
    end.
    match goal with
    | |- allWellFormed _ (_ children ?t1) =>
        assert (H1 : allWellFormed includeContext t1); [ | generalize t1 H1 ]
    end.
    { destruct (truthy message) eqn:Em; [ | exact Ht ].
      intros k e Hk. apply in_assign in Hk as [[_ ->] | Hk]; [ | eauto].
      split; simpl; [now apply truthy_nonempty | ].
      intros ->.
      destruct (lookup transform (setKeyOf types namespace key)) as [e0 | ] eqn:El;
        [ | reflexivity].
      apply lookup_in in El as [k0 Hk0]. now apply (Ht k0 e0 Hk0). }
    induction IH as [| [k v] rest Hv _ IHrest]; intros acc Hacc; [exact Hacc | ].
    apply IHrest. apply Hv. exact Hacc.
Qed.

(** One property never removes a key. *)
Lemma handleProperty_keys_grow (value : Value) :
  forall namespace given currentContext key transform k,
    In k (keys transform) ->
    In k (keys (handleProperty types includeContext namespace given
                  currentContext key value transform)).
Proof.
  induction value as [s | nodeTypes message context children IH]
    using Value_rect_nested;
    intros namespace given currentContext key transform k Hk;
    simpl; destruct (JsString.startsWith key "$"); try exact Hk.
  - destruct (Nat.eqb (String.length s) 0); [exact Hk | ].
    apply keys_assign_grow. now right.
  - match goal with
    | |- In k (keys (if ?gate then _ else _)) => destruct gate; [exact Hk | ]
    end.
    match goal with
    | |- In k (keys (_ children ?t1)) =>
        assert (H1 : In k (keys t1)); [ | generalize t1 H1 ]
    end.
    { destruct (truthy message); [ | exact Hk ].
      apply keys_assign_grow. now right. }
    induction IH as [| [k' v] rest Hv _ IHrest]; intros acc Hacc; [exact Hacc | ].
    apply IHrest. apply Hv. exact Hacc.
Qed.

Lemma handleProperties_keys_grow (data : list (string * Value)) :
  forall namespace given currentContext transform k,
    In k (keys transform) ->
    In k (keys (handleProperties types includeContext namespace given
                  currentContext data transform)).
Proof.
  unfold handleProperties.
  induction data as [| [key value] rest IH];
    intros namespace given currentContext transform k Hk; simpl; [exact Hk | ].
  apply IH. now apply handleProperty_keys_grow.
Qed.

Lemma handleProperties_wellFormed (data : list (string * Value)) :
  forall namespace given currentContext transform,
    allWellFormed includeContext transform ->
    allWellFormed includeContext (handleProperties types includeContext namespace given
                     currentContext data transform).
Proof.
  unfold handleProperties.
  induction data as [| [key value] rest IH];
    intros namespace given currentContext transform Ht; simpl; [exact Ht | ].
  apply IH. now apply handleProperty_wellFormed.
Qed.


End Catalog.

(** X10: a catalog extracted for the manifest-only profile has no dot in any
    of its keys, at any depth and under any starting namespace: the
    separators of the path are all underscores. *)
Theorem X10_manifest_keys_without_dot (data : I18n.File)
    (namespace : option string) (includeContext : bool)
    (currentContext : option string) (k : string) :
  In k
     (I18n.keys
        (I18n.handleI18NNamespace data (Some [I18n.manifest]) namespace None
           includeContext currentContext)) ->
  I18n.hasDot k = false.
Proof.
  unfold I18n.handleI18NNamespace, I18n.handleProperties.
  assert (H : I18n.dotFree []) by (intros k' []).
  revert H. generalize (@nil (string * I18n.Entry)).
  induction data as [| [key v] rest IH]; intros acc Hacc; simpl;
    [apply Hacc | ].
  apply IH. now apply handleProperty_manifest_dotFree.
Qed.

Lemma X10_manifest_keys_without_dot_witness :
  I18n.hasDot "a_b" = false.
Proof.
  apply (X10_manifest_keys_without_dot sampleManifestTree None false None "a_b").
  left; reflexivity.
Defined.

(** X11: every entry of an extracted catalog has a message that is not
    empty, whatever the tree and the profile; and when contexts are not
    asked for, no entry has one. *)
Theorem X11_entries_well_formed (data : I18n.File)
    (types : option (list I18n.Env)) (namespace : option string)
    (includeContext : bool) (currentContext : option string)
    (k : string) (e : I18n.Entry) :
  In (k, e)
     (I18n.handleI18NNamespace data types namespace None includeContext
        currentContext) ->
  (exists s, I18n.e_message e = Some s /\ s <> EmptyString)
  /\ (includeContext = false -> I18n.e_context e = None).
Proof.
  intros H.
  apply (handleProperties_wellFormed types includeContext data namespace false
           currentContext [] (fun _ _ F => match F with end) k e H).
Qed.

Lemma X11_entries_well_formed_witness :
  (exists s,
     I18n.e_message
       {| I18n.e_context := None; I18n.e_message := Some "Hello {name}" |}
     = Some s
     /\ s <> EmptyString)
  /\ (false = false ->
      I18n.e_context
        {| I18n.e_context := None; I18n.e_message := Some "Hello {name}" |}
      = None).
Proof.
  apply (X11_entries_well_formed sampleTree (Some [I18n.main]) None false None
           "a.b" {| I18n.e_context := None; I18n.e_message := Some "Hello {name}" |}).
  left; reflexivity.
Defined.

(** X12: extraction into an existing catalog only adds or overwrites: every
    key the catalog had is still there afterwards. *)
Theorem X12_extraction_keeps_keys (data : I18n.File)
    (types : option (list I18n.Env)) (namespace : option string)
    (transform : I18n.Transform) (includeContext : bool)
    (currentContext : option string) (k : string) :
  In k (I18n.keys transform) ->
  In k
     (I18n.keys
        (I18n.handleI18NNamespace data types namespace (Some transform)
           includeContext currentContext)).
Proof.
  intros H. unfold I18n.handleI18NNamespace.
  now apply handleProperties_keys_grow.
Qed.

Lemma X12_extraction_keeps_keys_witness :
  In "name"
     (I18n.keys
        (I18n.handleI18NNamespace sampleTree (Some [I18n.main]) None
           (Some [("name", {| I18n.e_context := None;
                              I18n.e_message := Some "RoSeal" |})])
           false None)).
Proof.
  apply (X12_extraction_keeps_keys sampleTree (Some [I18n.main]) None
           [("name", {| I18n.e_context := None; I18n.e_message := Some "RoSeal" |})]
           false None "name").
  left; reflexivity.
Defined.



(** ** ICU arguments *)

Section IcuArguments.

Import I18n.

Lemma handleItem_select (v : string) (options : list (string * list Element)) :
  handleItem (Select v options)
  = Select v options
    :: flat_map (fun o => flat_map handleItem (snd o)) options.
Proof.
  simpl. f_equal.
  induction options as [| [name branch] rest IH]; simpl; [reflexivity | ].
  now rewrite IH.
Qed.

Lemma handleItem_plural (v : string) (options : list (string * list Element)) :
  handleItem (Plural v options)
  = Plural v options
    :: flat_map (fun o => flat_map handleItem (snd o)) options.
Proof.
  simpl. f_equal.
  induction options as [| [name branch] rest IH]; simpl; [reflexivity | ].
  now rewrite IH.
Qed.

Lemma handleItem_tag (v : string) (children : list Element) :
  handleItem (Tag v children) = Tag v children :: flat_map handleItem children.
Proof.
  reflexivity.
Qed.

(** [handleItem] lists an element and everything nested in it, nothing
    else. *)
Lemma handleItem_within (root e : Element) :
  In e (handleItem root) <-> within e root.
Proof.
  split.
  - revert e.
    induction root as [v | v | v | v | v | v options IH | v options IH | | v children IH]
      using Element_ind_nested; intros e;
      try (simpl; intros [<- | []]; constructor).
    + rewrite handleItem_select. intros [<- | Hin]; [constructor | ].
      apply in_flat_map in Hin as ([name branch] & Ho & Hin).
      apply in_flat_map in Hin as (x & Hx & Hin).
      rewrite Forall_forall in IH. specialize (IH _ Ho).
      rewrite Forall_forall in IH.
      eapply within_select; [exact Ho | exact Hx | now apply IH].
    + rewrite handleItem_plural. intros [<- | Hin]; [constructor | ].
      apply in_flat_map in Hin as ([name branch] & Ho & Hin).
      apply in_flat_map in Hin as (x & Hx & Hin).
      rewrite Forall_forall in IH. specialize (IH _ Ho).
      rewrite Forall_forall in IH.
      eapply within_plural; [exact Ho | exact Hx | now apply IH].
    + rewrite handleItem_tag. intros [<- | Hin]; [constructor | ].
      apply in_flat_map in Hin as (x & Hx & Hin).
      rewrite Forall_forall in IH.
      eapply within_tag; [exact Hx | now apply IH].
  - intros H. induction H as [e | e x v name options branch Ho Hx _ IH
                              | e x v name options branch Ho Hx _ IH
                              | e x v children Hx _ IH].
    + destruct e; simpl; auto.
    + rewrite handleItem_select. right.
      apply in_flat_map. exists (name, branch). split; [exact Ho | ].
      apply in_flat_map. eauto.
    + rewrite handleItem_plural. right.
      apply in_flat_map. exists (name, branch). split; [exact Ho | ].
      apply in_flat_map. eauto.
    + rewrite handleItem_tag. right. apply in_flat_map. eauto.
Qed.

Lemma existsb_eqb_in (v : string) (l : list string) :
  existsb (String.eqb v) l = true <-> In v l.
Proof.
  rewrite existsb_exists. split.
  - intros (x & Hx & E). apply String.eqb_eq in E. now subst.
  - intros H. exists v. split; [exact H | apply String.eqb_refl].
Qed.

(** The stateful filter: what it lets through is new, not empty, and the
    value of one of the elements. *)
Lemma dedupe_in (args : list Element) :
  forall handledKeys n,
    In n (dedupe args handledKeys)
    <-> ~ In n handledKeys
        /\ n <> EmptyString
        /\ exists item, In item args /\ valueOf item = Some n.
Proof.
  induction args as [| item rest IH]; intros handledKeys n; simpl.
  - split; [intros [] | intros (_ & _ & x & [] & _)].
  - destruct (valueOf item) as [v | ] eqn:Ev.
    + destruct v as [| c v].
      * simpl. rewrite IH. split.
        -- intros (H1 & H2 & x & Hx & Hv). eauto 6.
        -- intros (H1 & H2 & x & [<- | Hx] & Hv); [congruence | eauto 6].
      * simpl truthy. cbv iota.
        destruct (existsb (String.eqb (String c v)) handledKeys) eqn:Ee.
        -- apply existsb_eqb_in in Ee. rewrite IH. split.
           ++ intros (H1 & H2 & x & Hx & Hv). eauto 6.
           ++ intros (H1 & H2 & x & [<- | Hx] & Hv); [ | eauto 6].
              rewrite Ev in Hv. inversion Hv; subst. contradiction.
        -- assert (Hnot : ~ In (String c v) handledKeys).
           { intros Hin. apply existsb_eqb_in in Hin. congruence. }
           simpl. rewrite IH. split.
           ++ intros [<- | (H1 & H2 & x & Hx & Hv)].
              ** split; [exact Hnot | split; [discriminate | eauto] ].
              ** split; [ | eauto 6].
                 intros Hin. apply H1. apply in_or_app. now left.
           ++ intros (H1 & H2 & x & Hx & Hv).
              destruct (string_dec (String c v) n) as [-> | Hne]; [now left | ].
              right. split; [ | split; [exact H2 | ] ].
              ** intros Hin. apply in_app_or in Hin as [Hin | [Hin | []]];
                   [contradiction | congruence].
              ** destruct Hx as [<- | Hx]; [ | eauto].
                 rewrite Ev in Hv. inversion Hv. congruence.
    + rewrite IH. split.
      * intros (H1 & H2 & x & Hx & Hv). eauto 6.
      * intros (H1 & H2 & x & [<- | Hx] & Hv); [congruence | eauto 6].
Qed.

Lemma dedupe_NoDup (args : list Element) :
  forall handledKeys, NoDup (dedupe args handledKeys).
Proof.
  induction args as [| item rest IH]; intros handledKeys; simpl; [constructor | ].
  destruct (valueOf item) as [[| c v] | ]; simpl truthy; cbv iota; try apply IH.
  destruct (existsb (String.eqb (String c v)) handledKeys); [apply IH | ].
  constructor; [ | apply IH].
  intros Hin. apply dedupe_in in Hin as [Hnot _].
  apply Hnot. apply in_or_app. right. now left.
Qed.

End IcuArguments.

(** X14: the flattening of an ICU message element lists the element itself
    first and then exactly the elements nested in its select and plural
    branches and in its tag children, at any depth. *)
Theorem X14_handleItem_lists_nested_elements (root e : I18n.Element) :
  hd_error (I18n.handleItem root) = Some root
  /\ (In e (I18n.handleItem root) <-> within e root).
Proof.
  split; [destruct root; reflexivity | apply handleItem_within].
Qed.

(** X15: the argument names collected for a message are pairwise distinct,
    and a name is collected exactly when it is not empty and is the value of
    an element of the parsed message, nested ones included, that is neither
    literal text nor a [#]. An entry without message has no argument. *)
Theorem X15_argument_names (parse : string -> option (list I18n.Element))
    (e : I18n.Entry) (message : string) (elements : list I18n.Element) :
  I18n.e_message e = Some message ->
  message <> EmptyString ->
  parse message = Some elements ->
  exists names,
    I18n.argumentNames parse e = Some names
    /\ NoDup names
    /\ (forall n,
          In n names
          <-> n <> EmptyString
              /\ exists root item,
                   In root elements /\ within item root
                   /\ I18n.isArgument item = true
                   /\ I18n.valueOf item = Some n)
    /\ I18n.argumentNames parse
         {| I18n.e_context := I18n.e_context e; I18n.e_message := None |}
       = Some [].
Proof.
  intros Hm Hne Hp. unfold I18n.argumentNames. rewrite Hm.
  destruct message as [| c message]; [congruence | ]. simpl I18n.truthy.
  cbv iota. rewrite Hp. simpl option_map.
  eexists. split; [reflexivity | ].
  split; [apply dedupe_NoDup | ].
  split; [ | reflexivity].
  intros n. rewrite dedupe_in. split.
  - intros (_ & Hn & item & Hin & Hv).
    apply filter_In in Hin as [Hin Harg].
    apply in_flat_map in Hin as (root & Hroot & Hin).
    apply handleItem_within in Hin. eauto 8.
  - intros (Hn & root & item & Hroot & Hw & Harg & Hv).
    split; [intros [] | split; [exact Hn | ] ].
    exists item. split; [ | exact Hv].
    apply filter_In. split; [ | exact Harg].
    apply in_flat_map. exists root. split; [exact Hroot | ].
    now apply handleItem_within.
Qed.

Lemma X15_argument_names_witness :
  exists names,
    I18n.argumentNames I18n.parseMessage
      {| I18n.e_context := None; I18n.e_message := Some "Hello {name}" |}
    = Some names
    /\ NoDup names
    /\ (forall n,
          In n names
          <-> n <> EmptyString
              /\ exists root item,
                   In root [I18n.Literal "Hello "; I18n.Argument "name"]
                   /\ within item root
                   /\ I18n.isArgument item = true
                   /\ I18n.valueOf item = Some n)
    /\ I18n.argumentNames I18n.parseMessage
         {| I18n.e_context := None; I18n.e_message := None |}
       = Some [].
Proof.
  apply (X15_argument_names I18n.parseMessage
           {| I18n.e_context := None; I18n.e_message := Some "Hello {name}" |}
           "Hello {name}" [I18n.Literal "Hello "; I18n.Argument "name"]);
    [reflexivity | discriminate | reflexivity].
Defined.

(** ** Rule generator: the security-policy rule *)

(** X16: the rule after the user-agent overrides sets the response header
    content-security-policy. When the fetched policy holds the directive
    start [img-src 'self'], the two emoji origins are inserted right after
    its first occurrence and everything else is kept as fetched; when it
    does not, the header is set to the fetched policy unchanged. *)
Theorem X16_security_policy_rule (STATIC_RULES_START_ID : Z) (target : Target)
    (isDev : bool) (version : string) (devServers : option DevServersAvailable)
    (robloxVersion : option string) (cspPolicy : string) :
  exists r v,
    nth_error
      (DNR.writeDNRRules STATIC_RULES_START_ID target isDev version devServers
         robloxVersion cspPolicy)
      (length (DNR.getUserAgentOverrides robloxVersion))
    = Some r
    /\ DNR.requestHeaders (DNR.action r) = None
    /\ DNR.responseHeaders (DNR.action r)
       = Some [ {| DNR.header := "content-security-policy";
                   DNR.operation := "set"; DNR.value := v |} ]
    /\ ((forall before after, ~ occursAt "img-src 'self'" cspPolicy before after) ->
        v = cspPolicy)
    /\ (forall before after,
          firstOccurrence "img-src 'self'" cspPolicy before after ->
          v = (before
               ++ "img-src 'self' https://cdn.jsdelivr.net/gh/jdecked/twemoji@16.0.1/assets/ https://cdn.jsdelivr.net/gh/RoSeal-Extension/fluentui-emoji@latest/export/"
               ++ after)%string).
Proof.
  do 2 eexists. split; [reflexivity | ].
  split; [reflexivity | split; [reflexivity | split] ].
  - intros Habsent. now apply replace_absent.
  - intros before after Hfirst.
    now apply (replace_first cspPolicy "img-src 'self'" _ before after).
Qed.

(** ** Build orchestrator: when a build returns *)

Section BuildOutcome.

Import Orchestrator.

Lemma run_unprepared (targetBase : TargetBase) (w : World) :
  prepared w = false ->
  exists done_ failed,
    run targetBase w = (done_ ++ [failed], Threw (Rejection failed))
    /\ (failed = EmptyDir \/ failed = Mkdir \/ failed = GetManifest)
    /\ (forall e, In e done_ -> e = EmptyDir \/ e = Mkdir).
Proof.
  unfold prepared, run, build, andThen, await.
  destruct (emptyDir w); simpl.
  - destruct (mkdir w); simpl.
    + destruct (getManifest w); simpl; [discriminate | ].
      intros _. exists [EmptyDir; Mkdir], GetManifest.
      split; [reflexivity | split; [tauto | ] ].
      intros e [<- | [<- | []]]; tauto.
    + intros _. exists [EmptyDir], Mkdir.
      split; [reflexivity | split; [tauto | ] ].
      intros e [<- | []]; tauto.
  - intros _. exists [], EmptyDir.
    split; [reflexivity | split; [tauto | ] ]. intros e [].
Qed.


Lemma run_returns (targetBase : TargetBase) (w : World) :
  snd (run targetBase w) = Returned tt
  <-> prepared w = true
      /\ (forall s, step w s = fulfilled)
      /\ (targetBase = apple -> convertToSafariExtension w = fulfilled).
Proof.
  destruct (prepared w) eqn:Ep.
  - rewrite (run_prepared targetBase w Ep). cbv zeta.
    pose proof (every_fulfilled w) as Hall.
    destruct (forallb isFulfilled (map (step w) tasks)).
    + assert (Hok : forall s, step w s = fulfilled) by now apply Hall.
      destruct targetBase; simpl TargetBase_eqb; cbv iota; cbn [snd].
      * split; [intros _ | reflexivity].
        split; [reflexivity | split; [exact Hok | discriminate] ].
      * split; [intros _ | reflexivity].
        split; [reflexivity | split; [exact Hok | discriminate] ].
      * unfold await. destruct (convertToSafariExtension w); cbn [snd].
        -- split; [intros _ | reflexivity]. auto.
        -- split; [discriminate | ]. intros (_ & _ & Hc).
           specialize (Hc eq_refl). discriminate.
    + cbn [snd]. split; [discriminate | ].
      intros (_ & Hok & _). apply Hall in Hok. discriminate.
  - destruct (run_unprepared targetBase w Ep) as (d & f & -> & _).
    cbn [snd]. split; [discriminate | intros [H _]; discriminate].
Qed.

End BuildOutcome.

(** X17: a build returns exactly when the output directory was cleared, the
    js directory made and the manifest read, each of the seven steps is
    fulfilled and, for the Apple family, the Safari conversion succeeded;
    in every other case it throws. *)
Theorem X17_build_returns_iff (targetBase : TargetBase) (w : Orchestrator.World) :
  (snd (Orchestrator.run targetBase w) = Orchestrator.Returned tt
   <-> Orchestrator.prepared w = true
       /\ (forall s, Orchestrator.step w s = fulfilled)
       /\ (targetBase = apple ->
           Orchestrator.convertToSafariExtension w = fulfilled))
  /\ (snd (Orchestrator.run targetBase w) = Orchestrator.Returned tt
      \/ exists t, snd (Orchestrator.run targetBase w) = Orchestrator.Threw t).
Proof.
  split; [apply run_returns | ].
  destruct (snd (Orchestrator.run targetBase w)) as [[] | t]; eauto.
Qed.

(** X18: when clearing the output directory, making the js directory or
    reading the manifest fails, the build stops there: it throws that
    failure, the failed operation is the last thing it did, and no step is
    launched, no outcome collected and no Safari conversion started. *)
Theorem X18_failed_preparation_launches_nothing (targetBase : TargetBase)
    (w : Orchestrator.World) :
  Orchestrator.prepared w = false ->
  exists done_ failed,
    Orchestrator.run targetBase w
    = (done_ ++ [failed], Orchestrator.Threw (Orchestrator.Rejection failed))
    /\ (failed = Orchestrator.EmptyDir \/ failed = Orchestrator.Mkdir
        \/ failed = Orchestrator.GetManifest)
    /\ (forall s r,
          ~ In (Orchestrator.Launched s) (fst (Orchestrator.run targetBase w))
          /\ ~ In (Orchestrator.Collected s r)
                  (fst (Orchestrator.run targetBase w)))
    /\ ~ In Orchestrator.ConvertToSafariExtension
            (fst (Orchestrator.run targetBase w)).
Proof.
  intros Hp.
  destruct (run_unprepared targetBase w Hp) as (d & f & E & Hf & Hd).
  exists d, f. rewrite E. cbn [fst].
  split; [reflexivity | split; [exact Hf | ] ].
  assert (Hall : forall e, In e (d ++ [f]) ->
                   e = Orchestrator.EmptyDir \/ e = Orchestrator.Mkdir
                   \/ e = Orchestrator.GetManifest).
  { intros e Hin. apply in_app_or in Hin as [Hin | [Hin | []]];
      [destruct (Hd _ Hin); tauto | subst e; exact Hf]. }
  split; [intros s r; split | ]; intros Hin; apply Hall in Hin;
    destruct Hin as [Hin | [Hin | Hin]]; discriminate.
Qed.

Lemma X18_failed_preparation_launches_nothing_witness :
  exists done_ failed,
    Orchestrator.run chromium manifestUnreadable
    = (done_ ++ [failed], Orchestrator.Threw (Orchestrator.Rejection failed))
    /\ (failed = Orchestrator.EmptyDir \/ failed = Orchestrator.Mkdir
        \/ failed = Orchestrator.GetManifest)
    /\ (forall s r,
          ~ In (Orchestrator.Launched s)
               (fst (Orchestrator.run chromium manifestUnreadable))
          /\ ~ In (Orchestrator.Collected s r)
                  (fst (Orchestrator.run chromium manifestUnreadable)))
    /\ ~ In Orchestrator.ConvertToSafariExtension
            (fst (Orchestrator.run chromium manifestUnreadable)).
Proof.
  apply (X18_failed_preparation_launches_nothing chromium manifestUnreadable).
  reflexivity.
Defined.

(** ** Command line *)

Section CommandLine.

Import Cli.

Lemma lowerAscii_twice (c : ascii) : lowerAscii (lowerAscii c) = lowerAscii c.
Proof.
  destruct c as [[|] [|] [|] [|] [|] [|] [|] [|]]; reflexivity.
Qed.

Lemma toLowerCase_twice (s : string) : toLowerCase (toLowerCase s) = toLowerCase s.
Proof.
  induction s as [| c s IH]; simpl; [reflexivity | ].
  now rewrite lowerAscii_twice, IH.
Qed.

Lemma find_target (name : string) :
  match find (fun t => String.eqb (Target_toString t) name) TARGETS with
  | Some t => Target_toString t = name
  | None => forall t, Target_toString t <> name
  end.
Proof.
  destruct (find (fun t => String.eqb (Target_toString t) name) TARGETS)
    as [t | ] eqn:E.
  - apply find_some in E as [_ E]. now apply String.eqb_eq in E.
  - intros t. apply String.eqb_neq. apply (find_none _ _ E).
    destruct t; simpl; tauto.
Qed.

End CommandLine.

(** X19: the build arguments. Without options the build is a development
    build for chrome. A target is accepted in any letter case exactly when
    its lower-case spelling is one of chrome, firefox, edge and safari; the
    result then names that target and the family the target belongs to, and
    it is a development build unless --release was passed. Any other
    target makes the call throw the message that lists the four targets. *)
Theorem X19_build_arguments (targetOption : option string)
    (releaseOption : option bool) :
  Cli.getBuildArgs None None
  = inl {| Cli.isDev := true; Cli.target := Chrome; Cli.targetBase := chromium |}
  /\ (forall t,
        Cli.getBuildArgs (Some (Target_toString t)) releaseOption
        = inl {| Cli.isDev :=
                   negb (match releaseOption with Some b => b | None => false end);
                 Cli.target := t;
                 Cli.targetBase := getTargetBaseFromTarget t |})
  /\ (forall s,
        Cli.getBuildArgs (Some s) releaseOption
        = Cli.getBuildArgs (Some (Cli.toLowerCase s)) releaseOption)
  /\ (forall a,
        Cli.getBuildArgs targetOption releaseOption = inl a ->
        Cli.targetBase a = getTargetBaseFromTarget (Cli.target a)
        /\ Target_toString (Cli.target a)
           = Cli.toLowerCase
               (match targetOption with Some s => s | None => "chrome" end))
  /\ ((forall t,
         Target_toString t
         <> Cli.toLowerCase
              (match targetOption with Some s => s | None => "chrome" end)) ->
      Cli.getBuildArgs targetOption releaseOption
      = inr "--target must be one of: chrome, firefox, edge, safari").
Proof.
  split; [reflexivity | ].
  split; [intros [ | | | ]; reflexivity | ].
  split; [intros s; unfold Cli.getBuildArgs; now rewrite toLowerCase_twice | ].
  unfold Cli.getBuildArgs.
  pose proof (find_target
                (Cli.toLowerCase
                   (match targetOption with Some s => s | None => "chrome" end)))
    as Hfind.
  destruct (find _ Cli.TARGETS) as [t | ]; split.
  - intros a Ha. inversion Ha; subst a. simpl. auto.
  - intros Hno. now apply Hno in Hfind.
  - discriminate.
  - reflexivity.
Qed.

(** ** Dev-server probes and what depends on them *)

(** X20: a production build resolves the API and the website to their
    production domains whatever the probes would say, and no probe outcome
    is an error; in a development build the API domain is the local port
    exactly when the API probe was fulfilled, and likewise for the website.
    With the record the probes give, the manifest of the Chromium and Apple
    families has the localhost wildcard in every development build (even
    with both probes rejected) and in no production build. *)
Theorem X20_probes_and_domains (m : Manifest) (targetBase : TargetBase)
    (target : Target) (isDev : bool) (isWsAccessible : option bool)
    (api www : Settled) :
  isSourceManifest m = true ->
  targetBase <> firefox ->
  let devServers := getDevServersAvailable isDev isWsAccessible api www in
  DNR.ROSEAL_API_DOMAIN (DNR.getDomains target isDev (Some devServers))
  = (if isDev && isFulfilled api then "localhost:4121" else "data.roseal.live")
  /\ DNR.ROSEAL_WEBSITE_DOMAIN (DNR.getDomains target isDev (Some devServers))
     = (if isDev && isFulfilled www then "localhost:35922" else "www.roseal.live")
  /\ (isDev = false -> devServers = allUnreachable)
  /\ exists out,
       transformManifest m targetBase isDev (Some devServers) = Ok out
       /\ host_permissions out
          = (if isDev
             then Some (orEmpty (host_permissions m) ++ ["*://localhost/*"])
             else host_permissions m).
Proof.
  intros H Ht devServers. subst devServers.
  split; [destruct isDev, api; reflexivity | ].
  split; [destruct isDev, www; reflexivity | ].
  split; [intros ->; reflexivity | ].
  destruct (transformManifest_other_host_permissions isDev
              (Some (getDevServersAvailable isDev isWsAccessible api www))
              m targetBase H Ht) as (out & E & Hh).
  exists out. split; [exact E | ].
  rewrite Hh, host_permissions_addLocalhost. reflexivity.
Qed.

Lemma X20_probes_and_domains_witness :
  let devServers := getDevServersAvailable true None rejected rejected in
  DNR.ROSEAL_API_DOMAIN (DNR.getDomains Chrome true (Some devServers))
  = "data.roseal.live"
  /\ DNR.ROSEAL_WEBSITE_DOMAIN (DNR.getDomains Chrome true (Some devServers))
     = "www.roseal.live"
  /\ (true = false -> devServers = allUnreachable)
  /\ exists out,
       transformManifest sampleManifest chromium true (Some devServers) = Ok out
       /\ host_permissions out
          = Some (orEmpty (host_permissions sampleManifest) ++ ["*://localhost/*"]).
Proof.
  apply (X20_probes_and_domains sampleManifest chromium Chrome true None
           rejected rejected);
    [reflexivity | discriminate].
Defined.

(** ** Dev server: who is notified *)

Section Connections.

Import DevServer.

Lemma open_NoDup (ws : Connection) (s : Server) :
  NoDup (connections s) -> NoDup (connections (open ws s)).
Proof.
  intros H. unfold open; simpl.
  destruct (existsb (Nat.eqb ws) (connections s)) eqn:E; [exact H | ].
  apply NoDup_app; [exact H | repeat constructor; intros [] | ].
  intros c Hc [Heq | []]. subst c.
  assert (existsb (Nat.eqb ws) (connections s) = true); [ | congruence].
  apply existsb_exists. exists ws. split; [exact Hc | apply Nat.eqb_refl].
Qed.

Lemma close_NoDup (ws : Connection) (s : Server) :
  NoDup (connections s) -> NoDup (connections (close ws s)).
Proof.
  intros H. unfold close; simpl. now apply NoDup_filter.
Qed.

(** The open-connection set never lists a connection twice. *)
Lemma reachable_NoDup (s : Server) : reachable s -> NoDup (connections s).
Proof.
  induction 1 as [| ws s _ IH | ws s _ IH | value type s _ IH].
  - constructor.
  - now apply open_NoDup.
  - now apply close_NoDup.
  - now rewrite handleChange_connections.
Qed.

Lemma sentBy_fulfilled (type : string) (s : Server) :
  type <> EmptyString ->
  sentBy fulfilled (Some type) s
  = map (fun c => (c, {| DevServer.type := type |})) (connections s).
Proof.
  intros Ht. unfold sentBy, handleChange, updateLog.
  destruct type as [| c t]; [congruence | ]. simpl. apply skipn_own_length.
Qed.

End Connections.

(** X21: in every state the dev server can reach, a successful rebuild with
    a type sends its notification to each open connection exactly once and
    to nobody else: the notifications sent are pairwise distinct, a
    connection that was closed receives none, and one that has just been
    opened receives one. *)
Theorem X21_each_open_connection_once (s : DevServer.Server) (type : string)
    (ws : DevServer.Connection) :
  reachable s ->
  type <> EmptyString ->
  NoDup (DevServer.sentBy fulfilled (Some type) s)
  /\ (forall c n,
        In (c, n) (DevServer.sentBy fulfilled (Some type) s)
        <-> In c (DevServer.connections s)
            /\ n = {| DevServer.type := type |})
  /\ (forall n,
        ~ In (ws, n)
             (DevServer.sentBy fulfilled (Some type) (DevServer.close ws s)))
  /\ In (ws, {| DevServer.type := type |})
        (DevServer.sentBy fulfilled (Some type) (DevServer.open ws s)).
Proof.
  intros Hr Ht.
  assert (Hiff : forall s' c n,
             In (c, n) (DevServer.sentBy fulfilled (Some type) s')
             <-> In c (DevServer.connections s')
                 /\ n = {| DevServer.type := type |}).
  { intros s' c n. rewrite (sentBy_fulfilled type s' Ht), in_map_iff. split.
    - intros (c' & Heq & Hc). inversion Heq; subst. auto.
    - intros [Hc ->]. eauto. }
  split; [ | split; [apply Hiff | split] ].
  - rewrite (sentBy_fulfilled type s Ht).
    apply NoDup_map_NoDup_ForallPairs; [ | now apply reachable_NoDup].
    intros a b _ _ Heq. now inversion Heq.
  - intros n Hin. apply Hiff in Hin as [Hin _].
    unfold DevServer.close in Hin; simpl in Hin.
    apply filter_In in Hin as [_ Hin]. now rewrite Nat.eqb_refl in Hin.
  - apply Hiff. split; [ | reflexivity].
    unfold DevServer.open; simpl.
    destruct (existsb (Nat.eqb ws) (DevServer.connections s)) eqn:E.
    + apply existsb_exists in E as (c & Hc & E).
      apply Nat.eqb_eq in E. now subst.
    + apply in_or_app. right. now left.
Qed.

Lemma X21_each_open_connection_once_witness :
  NoDup (DevServer.sentBy fulfilled (Some "Reload") twoClients)
  /\ (forall c n,
        In (c, n) (DevServer.sentBy fulfilled (Some "Reload") twoClients)
        <-> In c (DevServer.connections twoClients)
            /\ n = {| DevServer.type := "Reload" |})
  /\ (forall n,
        ~ In (1, n)
             (DevServer.sentBy fulfilled (Some "Reload")
                (DevServer.close 1 twoClients)))
  /\ In (1, {| DevServer.type := "Reload" |})
        (DevServer.sentBy fulfilled (Some "Reload") (DevServer.open 1 twoClients)).
Proof.
  apply (X21_each_open_connection_once twoClients "Reload" 1);
    [ | discriminate].
  apply reachable_open, reachable_open, reachable_start.
Defined.

(** ** Static copy for Firefox *)

Section StaticCopy.

Import CopyStatic.





End StaticCopy.


(** ** Build-time parameters *)

(** X23: with a cache file the parameters are the cached ones and nothing is
    fetched, whatever the network would answer. Without it the two requests
    go to the production Roblox domain, for every target and mode; the call
    fails when either request fails, and a home page without a
    security-policy header gives the empty policy. *)
Theorem X23_build_time_parameters (target : option Target) (isDev : bool)
    (devServersAvailable : option DevServersAvailable)
    (env : BuildTime.Environment) :
  let effects :=
    fst (BuildTime.getBuildTimeParams target isDev devServersAvailable env) in
  let result :=
    snd (BuildTime.getBuildTimeParams target isDev devServersAvailable env) in
  (forall cached,
     BuildTime.cache env = Some cached ->
     result = cached /\ filter BuildTime.isFetch effects = [])
  /\ (BuildTime.cache env = None ->
      filter BuildTime.isFetch effects
      = [BuildTime.Fetch
           "https://clientsettingscdn.roblox.com/v2/client-version/WindowsPlayer";
         BuildTime.Fetch "https://www.roblox.com/home"]
      /\ (result <> None
          <-> BuildTime.clientVersion env <> None
              /\ BuildTime.homePage env <> None)
      /\ (forall version,
            BuildTime.clientVersion env = Some version ->
            BuildTime.homePage env = Some None ->
            result = Some {| BuildTime.robloxVersion := version;
                             BuildTime.cspPolicy := EmptyString |})).
Proof.
  intros effects result. subst effects result.
  unfold BuildTime.getBuildTimeParams. split.
  - intros cached ->. split; reflexivity.
  - intros ->. cbn [fst snd].
    split; [reflexivity | split].
    + destruct (BuildTime.clientVersion env), (BuildTime.homePage env);
        intuition congruence.
    + intros version -> ->. reflexivity.
Qed.

(** ** Release packaging *)

Section Packaging.

Import Distribution.






End Packaging.

